(** * mcp_searxng: the validation, filtering and formatting contract

    A shallow embedding of [mcp_searxng/models.py], [config.py],
    [client.py] and [server.py], with the properties of the specification
    stated and proved over it.

    Python values are modelled as follows.
    - [str] is [string]; one character is one code point below 256.
    - [int] is [Z].
    - [float] is an IEEE binary64 value, [spec_float].
    - a value decoded from JSON (or handed to a pydantic model) is [json].
    - a [dict] built by the program is a [gmap string json]; a decoded JSON
      object is an association list read by its first matching key.
    - an exception is a value of [exn]; code that may raise returns
      [result A].

    What belongs to pydantic, httpx or the interpreter rather than to this
    repository (URL parsing, lax coercion of scalars, [str] of a non-string,
    the text of a validation error) is gathered in the class [Runtime]. *)

From Stdlib Require Import ZArith Lia Ascii String List DecimalString.
From Stdlib Require Import Floats.SpecFloat.
From stdpp Require Import base option list gmap strings.

Local Open Scope Z_scope.

(** ** Python builtins *)

Module Py.

(** The newline character and the two-line separator of [str.join]. *)
Definition NL : string := String (ascii_of_nat 10) "".

(** [len(s)] *)
Definition len (s : string) : Z := Z.of_nat (String.length s).

(** [len(l)] *)
Definition llen {A} (l : list A) : Z := Z.of_nat (length l).

(** [bool(s)]: a string is truthy when it is not empty. *)
Definition truthy (s : string) : bool :=
  match s with "" => false | String _ _ => true end.

(** [c.isspace()] on the code points below 256: TAB..CR, FS..US, SPACE,
    NEL and NBSP. *)
Definition isspace (c : ascii) : bool :=
  let n := nat_of_ascii c in
  ((9 <=? n) && (n <=? 13) || (28 <=? n) && (n <=? 32)
   || (n =? 133) || (n =? 160))%nat.

(** [s.lstrip(chars)], with the character set given as a predicate. *)
Fixpoint lstrip_by (p : ascii → bool) (s : string) : string :=
  match s with
  | "" => ""
  | String c s' => if p c then lstrip_by p s' else s
  end.

(** [s.rstrip(chars)] *)
Fixpoint rstrip_by (p : ascii → bool) (s : string) : string :=
  match s with
  | "" => ""
  | String c s' =>
      match rstrip_by p s' with
      | "" => if p c then "" else String c ""
      | t => String c t
      end
  end.

(** [s.strip()] *)
Definition strip (s : string) : string := rstrip_by isspace (lstrip_by isspace s).

(** The stop index of the slice [x[:stop]] on a sequence of length [n]:
    a negative [stop] counts from the end, and both are clamped. *)
Definition slice_stop (n stop : Z) : nat :=
  Z.to_nat (if stop <? 0 then Z.max 0 (n + stop) else Z.min stop n).

(** [s[:stop]] on a string *)
Definition str_slice_to (s : string) (stop : Z) : string :=
  String.substring 0 (slice_stop (len s) stop) s.

(** [l[:stop]] on a list *)
Definition list_slice_to {A} (l : list A) (stop : Z) : list A :=
  take (slice_stop (llen l) stop) l.

(** [sep.join(l)] *)
Definition join (sep : string) (l : list string) : string := String.concat sep l.

(** [str(i)] for an [int] *)
Definition str_int (i : Z) : string := NilZero.string_of_int (Z.to_int i).

(** All the characters of [s] are white space; [s.strip()] is then empty. *)
Fixpoint blank (s : string) : bool :=
  match s with
  | "" => true
  | String c s' => isspace c && blank s'
  end.

(** The number of newline characters of a string. *)
Fixpoint newlines (s : string) : nat :=
  match s with
  | "" => 0%nat
  | String c s' => ((if Ascii.eqb c (ascii_of_nat 10) then 1 else 0) + newlines s')%nat
  end.

End Py.

(** ** Decoded JSON values *)

#[warnings="-register-all"]
Inductive json : Type :=
| JNull
| JBool (b : bool)
| JInt (i : Z)
| JFloat (f : spec_float)
| JStr (s : string)
| JList (items : list json)
| JDict (fields : list (string * json)).

(** [d.get(k)] on a decoded object *)
Fixpoint dict_get (k : string) (d : list (string * json)) : option json :=
  match d with
  | [] => None
  | (k', v) :: d' => if String.eqb k k' then Some v else dict_get k d'
  end.

(** ** Exceptions and results *)

(** One line of a pydantic validation error: where, and the error type. *)
Record verr := { loc : list string; kind : string }.

(** An exception. [Raised] is an exception of a library or of the
    interpreter whose class derives from [Exception]; [Interrupt] is one
    whose class derives from [BaseException] only: [asyncio.CancelledError],
    [KeyboardInterrupt], [SystemExit]. *)
Inductive exn : Type :=
| ValidationError (model : string) (errors : list verr)
| TypeError (culprit : json)
| Raised (cls : string) (msg : string)
| Interrupt (cls : string) (msg : string).

(** [isinstance(e, Exception)] *)
Definition is_Exception (e : exn) : bool :=
  match e with
  | Interrupt _ _ => false
  | _ => true
  end.

(** The outcome of code that may raise. *)
Inductive result (A : Type) : Type :=
| Ok (a : A)
| Raise (e : exn).
Arguments Ok {A} a.
Arguments Raise {A} e.

Global Instance result_ret : MRet result := λ A a, Ok a.
Global Instance result_bind : MBind result :=
  λ A B f m, match m with Ok a => f a | Raise e => Raise e end.

(** The outcome of validating one value: pydantic collects the errors of
    all the fields of a model before it raises. *)
Inductive validated (A : Type) : Type :=
| Valid (a : A)
| Invalid (errors : list verr).
Arguments Valid {A} a.
Arguments Invalid {A} errors.

Module V.

Definition errors_of {A} (v : validated A) : list verr :=
  match v with Valid _ => [] | Invalid es => es end.

(** Validate the next field and hand it to the constructor. *)
Definition ap {A B} (f : validated (A → B)) (x : validated A) : validated B :=
  match f, x with
  | Valid g, Valid a => Valid (g a)
  | _, _ => Invalid (errors_of f ++ errors_of x)
  end.

Definition map {A B} (g : A → B) (x : validated A) : validated B :=
  match x with Valid a => Valid (g a) | Invalid es => Invalid es end.

(** Errors found below a field or an index are reported under it. *)
Definition at_loc {A} (name : string) (x : validated A) : validated A :=
  match x with
  | Valid a => Valid a
  | Invalid es => Invalid ((λ e, {| loc := name :: loc e; kind := kind e |}) <$> es)
  end.

Definition fail {A} (k : string) : validated A := Invalid [{| loc := []; kind := k |}].

Definition of_option {A} (k : string) (o : option A) : validated A :=
  match o with Some a => Valid a | None => fail k end.

(** Every item is validated; the errors of all of them are kept. *)
Fixpoint items_from {A} (validate : json → validated A) (i : nat) (l : list json)
  : validated (list A) :=
  match l with
  | [] => Valid []
  | x :: l' =>
      ap (map cons (at_loc (Py.str_int (Z.of_nat i)) (validate x)))
         (items_from validate (S i) l')
  end.

(** A model raises when one of its fields did not validate. *)
Definition raise_for {A} (model : string) (x : validated A) : result A :=
  match x with
  | Valid a => Ok a
  | Invalid es => Raise (ValidationError model es)
  end.

End V.

Notation "f <*> x" := (V.ap f x) (at level 61, left associativity).

(** ** The runtime: pydantic, httpx and the interpreter *)

Class Runtime := {
  (** pydantic's [HttpUrl]: the normalised text of a valid http(s) URL *)
  HttpUrl_parse : string → option string;
  (** pydantic's lax coercion to [int] of an input that is not an [int] *)
  lax_int : json → option Z;
  (** pydantic's lax coercion to [float] of an input that is not a [float] *)
  lax_float : json → option spec_float;
  (** pydantic's lax coercion to [bool] of an input that is not a [bool] *)
  lax_bool : json → option bool;
  (** [str(x)] for a value that is not a [str] *)
  str_other : json → string;
  (** [str(e)] for an exception built by pydantic or the interpreter *)
  str_builtin_exn : exn → string;
}.

(** An [HttpUrl] value is kept as its text, which is what [str(url)] gives. *)
Abbreviation HttpUrl := string (only parsing).

Section Pydantic.
Context `{RT : Runtime}.

(** [str(x)] *)
Definition py_str (x : json) : string :=
  match x with JStr s => s | _ => str_other x end.

(** [str(e)] *)
Definition exn_str (e : exn) : string :=
  match e with Raised _ msg => msg | _ => str_builtin_exn e end.

(** A field of type [str]. *)
Definition validate_str (v : json) : validated string :=
  match v with JStr s => Valid s | _ => V.fail "string_type" end.

(** A field of type [int]. *)
Definition validate_int (v : json) : validated Z :=
  match v with JInt i => Valid i | _ => V.of_option "int_parsing" (lax_int v) end.

(** A field of type [float]. *)
Definition validate_float (v : json) : validated spec_float :=
  match v with JFloat f => Valid f | _ => V.of_option "float_parsing" (lax_float v) end.

(** A field of type [bool]. *)
Definition validate_bool (v : json) : validated bool :=
  match v with JBool b => Valid b | _ => V.of_option "bool_parsing" (lax_bool v) end.

(** A field of type [HttpUrl]. *)
Definition validate_HttpUrl (v : json) : validated HttpUrl :=
  match v with
  | JStr s => V.of_option "url_parsing" (HttpUrl_parse s)
  | _ => V.fail "url_type"
  end.

(** A field of type [Optional[T]]. *)
Definition validate_Optional {A} (validate : json → validated A) (v : json)
  : validated (option A) :=
  match v with JNull => Valid None | _ => V.map Some (validate v) end.

(** A field of type [List[T]]. *)
Definition validate_List {A} (validate : json → validated A) (v : json)
  : validated (list A) :=
  match v with JList l => V.items_from validate 0 l | _ => V.fail "list_type" end.

(** A field of type [Literal[...]]. *)
Definition validate_Literal (allowed : list string) (v : json) : validated string :=
  match v with
  | JStr s => if bool_decide (s ∈ allowed) then Valid s else V.fail "literal_error"
  | _ => V.fail "literal_error"
  end.

(** The constraints [ge=lo] and [le=hi] of an [int] field. *)
Definition check_ge (lo : Z) (x : validated Z) : validated Z :=
  match x with
  | Valid i => if lo <=? i then Valid i else V.fail "greater_than_equal"
  | Invalid es => Invalid es
  end.
Definition check_le (hi : Z) (x : validated Z) : validated Z :=
  match x with
  | Valid i => if i <=? hi then Valid i else V.fail "less_than_equal"
  | Invalid es => Invalid es
  end.

(** The constraint [min_length=n] of a [str] field. *)
Definition check_min_length (n : Z) (x : validated string) : validated string :=
  match x with
  | Valid s => if n <=? Py.len s then Valid s else V.fail "string_too_short"
  | Invalid es => Invalid es
  end.

(** A field with a default: the default is taken as it is when none of the
    keys the field answers to is given, and the input is validated
    otherwise. *)
Fixpoint lookup_keys (keys : list string) (d : list (string * json)) : option json :=
  match keys with
  | [] => None
  | k :: keys' =>
      match dict_get k d with Some v => Some v | None => lookup_keys keys' d end
  end.

Definition field {A} (d : list (string * json)) (keys : list string) (name : string)
    (default : option A) (validate : json → validated A) : validated A :=
  match lookup_keys keys d with
  | Some v => V.at_loc name (validate v)
  | None =>
      match default with
      | Some a => Valid a
      | None => V.at_loc name (V.fail "missing")
      end
  end.

End Pydantic.

(** ** models.py *)

Module SearchResult.

(** [class SearchResult(BaseModel)] *)
Record t := mk {
  url : option HttpUrl;
  title : string;
  content : option string;
  published_date : option string;
  thumbnail : option string;
  engine : string;
  engines : list string;
  score : spec_float;
  category : string;
}.

(** [validate_url]: convert empty strings to [None]. *)
Definition validate_url (v : json) : json :=
  match v with
  | JStr "" => JNull
  | JNull => JNull
  | _ => v
  end.

(** [validate_content]: convert [None] to the empty string. *)
Definition validate_content (v : json) : json :=
  match v with
  | JNull => JStr ""
  | _ => v
  end.

(** [is_valid]: the result has the minimum required fields. *)
Definition is_valid (self : t) : bool :=
  match url self with
  | None => false
  | Some u =>
      let url_str := Py.strip u in
      Py.truthy (title self) && Py.truthy url_str
  end.

Section Model.
Context `{RT : Runtime}.

(** Validation of a [SearchResult] built from the keywords [d]; [publishedDate] is
    the alias of [published_date], and [populate_by_name] lets the field
    name stand for it. *)
Definition validate_fields (d : list (string * json)) : validated t :=
  Valid mk
    <*> field d ["url"] "url" (Some None)
          (λ v, validate_Optional validate_HttpUrl (validate_url v))
    <*> field d ["title"] "title" (Some "") validate_str
    <*> field d ["content"] "content" (Some (Some ""))
          (λ v, validate_Optional validate_str (validate_content v))
    <*> field d ["publishedDate"; "published_date"] "publishedDate" (Some None)
          (validate_Optional validate_str)
    <*> field d ["thumbnail"] "thumbnail" (Some None) (validate_Optional validate_str)
    <*> field d ["engine"] "engine" (Some "") validate_str
    <*> field d ["engines"] "engines" (Some []) (validate_List validate_str)
    <*> field d ["score"] "score" (Some (S754_zero false)) validate_float
    <*> field d ["category"] "category" (Some "general") validate_str.

(** A [SearchResult] met as an item of another model. *)
Definition validate (v : json) : validated t :=
  match v with
  | JDict d => validate_fields d
  | _ => V.fail "model_type"
  end.

End Model.

End SearchResult.

Module SearchResponse.

(** [class SearchResponse(BaseModel)] *)
Record t := mk {
  query : string;
  number_of_results : Z;
  results : list SearchResult.t;
  suggestions : list string;
  corrections : list string;
  unresponsive_engines : list string;
}.

(** The assignment [self.results = value]. *)
Definition set_results (self : t) (value : list SearchResult.t) : t :=
  {| query := query self;
     number_of_results := number_of_results self;
     results := value;
     suggestions := suggestions self;
     corrections := corrections self;
     unresponsive_engines := unresponsive_engines self |}.

(** [get_valid_results]: only the valid results, in order. *)
Definition get_valid_results (self : t) : list SearchResult.t :=
  List.filter SearchResult.is_valid (results self).

Section Model.
Context `{RT : Runtime}.

(** [validate_unresponsive_engines]: the field may hold strings and
    lists; the loop appends to [result] item by item. *)
Definition validate_unresponsive_engines (v : json) : json :=
  match v with
  | JList items =>
      JList (foldl (λ result item,
                      match item with
                      | JStr s => result ++ [JStr s]
                      | JList (first :: _) => result ++ [JStr (py_str first)]
                      | _ => result
                      end) [] items)
  | _ => JList []
  end.

(** The value the field [unresponsive_engines] takes for an input. *)
Definition normalize_unresponsive_engines (v : json) : validated (list string) :=
  validate_List validate_str (validate_unresponsive_engines v).

Definition validate_fields (d : list (string * json)) : validated t :=
  Valid mk
    <*> field d ["query"] "query" None validate_str
    <*> field d ["number_of_results"] "number_of_results" (Some 0) validate_int
    <*> field d ["results"] "results" (Some []) (validate_List SearchResult.validate)
    <*> field d ["suggestions"] "suggestions" (Some []) (validate_List validate_str)
    <*> field d ["corrections"] "corrections" (Some []) (validate_List validate_str)
    <*> field d ["unresponsive_engines"] "unresponsive_engines" (Some [])
          normalize_unresponsive_engines.

(** The constructor applied to the unpacked [data]. *)
Definition init (data : json) : result t :=
  match data with
  | JDict d => V.raise_for "SearchResponse" (validate_fields d)
  | _ => Raise (TypeError data)
  end.

End Model.

End SearchResponse.

Module SearchRequest.

(** [class SearchRequest(BaseModel)] *)
Record t := mk {
  q : string;
  format : string;
  categories : string;
  pageno : Z;
  language : option string;
  time_range : option string;
  safesearch : Z;
}.

(** The keyword arguments a caller may add to [q] and [pageno]. *)
Record kwargs := {
  kw_format : option string;
  kw_categories : option string;
  kw_language : option string;
  kw_time_range : option string;
  kw_safesearch : option Z;
}.

Definition no_kwargs : kwargs :=
  {| kw_format := None; kw_categories := None; kw_language := None;
     kw_time_range := None; kw_safesearch := None |}.

(** A constrained field that was given is checked; a default is not. *)
Definition given {A} (name : string) (check : validated A → validated A)
    (default : A) (o : option A) : validated A :=
  match o with
  | Some a => V.at_loc name (check (Valid a))
  | None => Valid default
  end.

(** The constructor applied to [q=query], [pageno=page] and the keywords. *)
Definition init (query : string) (page : Z) (kw : kwargs) : result t :=
  V.raise_for "SearchRequest"
    (Valid mk
       <*> given "q" (check_min_length 1) "" (Some query)
       <*> Valid (default "json" (kw_format kw))
       <*> Valid (default "general" (kw_categories kw))
       <*> given "pageno" (check_ge 1) 1 (Some page)
       <*> Valid (kw_language kw)
       <*> Valid (kw_time_range kw)
       <*> given "safesearch" (λ x, check_le 2 (check_ge 0 x)) 1 (kw_safesearch kw)).

(** [to_params]: the dictionary for the HTTP request. The two [if] test the
    optional fields by truthiness: [None] and the empty string are false. *)
Definition to_params (self : t) : gmap string json :=
  let params : gmap string json :=
    <["safesearch" := JInt (safesearch self)]>
      (<["pageno" := JInt (pageno self)]>
         (<["categories" := JStr (categories self)]>
            (<["format" := JStr (format self)]>
               (<["q" := JStr (q self)]> ∅)))) in
  let params :=
    match language self with
    | Some l => if Py.truthy l then <["language" := JStr l]> params else params
    | None => params
    end in
  let params :=
    match time_range self with
    | Some r => if Py.truthy r then <["time_range" := JStr r]> params else params
    | None => params
    end in
  params.

End SearchRequest.

(** ** config.py *)

Module Settings.

(** [class Settings(BaseSettings)] *)
Record t := mk {
  searxng_url : HttpUrl;
  searxng_timeout : Z;
  searxng_max_results : Z;
  mcp_transport : string;
  mcp_port : Z;
  log_level : string;
  cache_enabled : bool;
}.

(** The keyword arguments of the constructor, as Python values. *)
Record kwargs := {
  kw_searxng_url : option json;
  kw_searxng_timeout : option json;
  kw_searxng_max_results : option json;
  kw_mcp_transport : option json;
  kw_mcp_port : option json;
  kw_log_level : option json;
  kw_cache_enabled : option json;
}.

Definition no_kwargs : kwargs :=
  {| kw_searxng_url := None; kw_searxng_timeout := None;
     kw_searxng_max_results := None; kw_mcp_transport := None;
     kw_mcp_port := None; kw_log_level := None; kw_cache_enabled := None |}.

(** What the constructor reads besides its arguments: the variables of the
    process and those of the [.env] file ([env_file=".env"]), names
    lower-cased since [case_sensitive] is off. *)
Record environment := {
  environ : gmap string string;
  dotenv : gmap string string;
}.

(** No variable and no [.env] file. *)
Global Instance environment_empty : Empty environment :=
  {| environ := ∅; dotenv := ∅ |}.

(** The variables of the process, with no [.env] file. *)
Definition process (vars : gmap string string) : environment :=
  {| environ := vars; dotenv := ∅ |}.

(** The names of the fields. *)
Definition field_names : list string :=
  ["searxng_url"; "searxng_timeout"; "searxng_max_results"; "mcp_transport";
   "mcp_port"; "log_level"; "cache_enabled"].

(** The names the [.env] file sets that are no field. *)
Definition extra_names (env : environment) : list string :=
  List.filter (λ name, negb (bool_decide (name ∈ field_names)))
    (map_to_list (dotenv env)).*1.

(** [extra] is [forbid] by default in [BaseSettings]: a name of the [.env]
    file that is no field is an error. A variable of the process that is no
    field is not read. *)
Definition forbid_extra (env : environment) : validated unit :=
  match extra_names env with
  | [] => Valid tt
  | names => Invalid ((λ name, {| loc := [name]; kind := "extra_forbidden" |}) <$> names)
  end.

(** [searxng_url_str]: the URL as a string, without trailing slashes. *)
Definition searxng_url_str (self : t) : string :=
  Py.rstrip_by (λ c, Ascii.eqb c "/"%char) (searxng_url self).

Section Model.
Context `{RT : Runtime}.

(** Where the value of a field comes from: the keyword argument if there
    is one, else the variable of the process of that name, else the one of
    the [.env] file; the value of a variable is a string. *)
Definition source (kw : option json) (env : environment) (name : string)
  : option json :=
  match kw with
  | Some v => Some v
  | None =>
      match environ env !! name with
      | Some value => Some (JStr value)
      | None => JStr <$> (dotenv env !! name)
      end
  end.

(** A field of the settings: validated when a source gives it, and the
    default otherwise. *)
Definition setting {A} (name : string) (kw : option json) (env : environment)
    (default : A) (validate : json → validated A) : validated A :=
  match source kw env name with
  | Some v => V.at_loc name (validate v)
  | None => Valid default
  end.

(** The constructor with keyword arguments [kw], in environment [env]. *)
Definition init (kw : kwargs) (env : environment) : result t :=
  V.raise_for "Settings"
    (Valid (λ url timeout max_results transport port level cache (_ : unit),
              mk url timeout max_results transport port level cache)
       <*> setting "searxng_url" (kw_searxng_url kw) env
             "https://searxng.pixelcrazed.com/" validate_HttpUrl
       <*> setting "searxng_timeout" (kw_searxng_timeout kw) env 30
             (λ v, check_le 300 (check_ge 1 (validate_int v)))
       <*> setting "searxng_max_results" (kw_searxng_max_results kw) env 10
             (λ v, check_le 100 (check_ge 1 (validate_int v)))
       <*> setting "mcp_transport" (kw_mcp_transport kw) env "stdio"
             (validate_Literal ["stdio"; "sse"])
       <*> setting "mcp_port" (kw_mcp_port kw) env 3000
             (λ v, check_le 65535 (check_ge 1 (validate_int v)))
       <*> setting "log_level" (kw_log_level kw) env "info"
             (validate_Literal ["debug"; "info"; "warning"; "error"])
       <*> setting "cache_enabled" (kw_cache_enabled kw) env false validate_bool
       <*> forbid_extra env).

(** [get_settings] *)
Definition get_settings (env : environment) : result t := init no_kwargs env.

End Model.

End Settings.

(** ** client.py *)

(** What httpx answers. A response carries the outcome of its two methods
    the client calls: [raise_for_status()] and [json()]. *)
Module Http.

Record response := {
  status_error : option exn;
  json_body : result json;
}.

(** [response.raise_for_status()] *)
Definition raise_for_status (r : response) : result unit :=
  match status_error r with
  | Some e => Raise e
  | None => Ok tt
  end.

(** The outcome of [client.get(url, params=params)]: a response, or the
    exception raised on the way (a timeout, a transport error). *)
Definition world : Type := string → gmap string json → result response.

End Http.

Module SearXNGClient.

(** [class SearXNGClient]. The connection handle [_client] is created on
    first use and released by [close]; no value computed here depends on
    it, and the exchange with the server is an [Http.world]. *)
Record t := mk {
  settings : Settings.t;
  base_url : string;
  timeout : Z;
  max_results : Z;
}.

(** The client of given settings. *)
Definition of_settings (s : Settings.t) : t :=
  {| settings := s;
     base_url := Settings.searxng_url_str s;
     timeout := Settings.searxng_timeout s;
     max_results := Settings.searxng_max_results s |}.

Section Client.
Context `{RT : Runtime}.

(** [__init__]: [settings or get_settings()] *)
Definition init (settings : option Settings.t) (env : Settings.environment) : result t :=
  s ← match settings with
      | Some s => Ok s
      | None => Settings.get_settings env
      end;
  mret (of_settings s).

(** [search]. The two [except] clauses log and raise again. *)
Definition search (self : t) (w : Http.world) (query : string) (page : Z)
    (kw : SearchRequest.kwargs) : result SearchResponse.t :=
  request ← SearchRequest.init query page kw;
  let url := base_url self +:+ "/search" in
  response ← w url (SearchRequest.to_params request);
  _ ← Http.raise_for_status response;
  data ← Http.json_body response;
  search_response ← SearchResponse.init data;
  let valid_results := SearchResponse.get_valid_results search_response in
  let valid_results :=
    if Py.llen valid_results >? max_results self
    then Py.list_slice_to valid_results (max_results self)
    else valid_results in
  mret (SearchResponse.set_results search_response valid_results).

(** [search_text] *)
Definition search_text (self : t) (w : Http.world) (query : string) (page : Z)
  : result SearchResponse.t :=
  search self w query page
    {| SearchRequest.kw_format := None;
       SearchRequest.kw_categories := Some "general";
       SearchRequest.kw_language := None;
       SearchRequest.kw_time_range := None;
       SearchRequest.kw_safesearch := None |}.

End Client.

End SearXNGClient.

(** ** server.py *)

Module Server.

(** [x or ""] on an [Optional[str]] *)
Definition or_empty (o : option string) : string :=
  match o with
  | Some s => if Py.truthy s then s else ""
  | None => ""
  end.

(** How an f-string shows an [Optional[HttpUrl]]. *)
Definition fmt_url (o : option HttpUrl) : string :=
  match o with
  | Some u => u
  | None => "None"
  end.

(** The snippet of one result: the conditional expression bound to
    [content] in the loop of [format_search_results]. *)
Definition snippet (content : option string) (max_content_len : Z) : string :=
  match content with
  | Some c =>
      if Py.truthy c && (Py.len c >? max_content_len)
      then Py.str_slice_to c max_content_len +:+ "..."
      else or_empty content
  | None => or_empty content
  end.

(** The block appended to [parts] for the result numbered [i]. *)
Definition block (max_content_len : Z) (i : Z) (r : SearchResult.t) : string :=
  Py.str_int i +:+ ". " +:+ SearchResult.title r +:+ Py.NL
    +:+ "   URL: " +:+ fmt_url (SearchResult.url r) +:+ Py.NL
    +:+ "   " +:+ snippet (SearchResult.content r) max_content_len.

Definition header (query : string) : string :=
  "Results for: " +:+ query +:+ Py.NL
    +:+ "(Launch parallel subagents to webfetch top 3-5 URLs and synthesize relevant info)"
    +:+ Py.NL.

(** The line of related searches. *)
Definition related (suggestions : list string) : string :=
  Py.NL +:+ "Related: " +:+ Py.join ", " (Py.list_slice_to suggestions 3).

(** [format_search_results] *)
Definition format_search_results (response : SearchResponse.t) (max_content_len : Z)
  : string :=
  match SearchResponse.results response with
  | [] => "No results: " +:+ SearchResponse.query response
  | _ :: _ =>
      let parts := [header (SearchResponse.query response)] in
      let parts :=
        parts ++ imap (λ i r, block max_content_len (Z.of_nat i + 1) r)
                   (SearchResponse.results response) in
      let parts :=
        match SearchResponse.suggestions response with
        | [] => parts
        | _ :: _ => parts ++ [related (SearchResponse.suggestions response)]
        end in
      Py.join (Py.NL +:+ Py.NL) parts
  end.

Section Tools.
Context `{RT : Runtime}.

(** [try: body / except Exception as e: handler(e)]: an exception that is
    no [Exception] is not caught. *)
Definition try_except {A} (body : result A) (handler : exn → A) : result A :=
  match body with
  | Ok a => Ok a
  | Raise e => if is_Exception e then Ok (handler e) else Raise e
  end.

(** [searxng_search]. The client is built before the [try] is entered. *)
Definition searxng_search (env : Settings.environment) (w : Http.world)
    (query : string) (page : Z) : result string :=
  client ← SearXNGClient.init None env;
  try_except
    (response ← SearXNGClient.search_text client w query page;
     mret (format_search_results response 150))
    (λ e, "Search failed: " +:+ exn_str e).

(** [searxng_search_images] *)
Definition searxng_search_images (env : Settings.environment) (w : Http.world)
    (query : string) (page : Z) : result string :=
  client ← SearXNGClient.init None env;
  try_except
    (response ← SearXNGClient.search client w query page
       {| SearchRequest.kw_format := None;
          SearchRequest.kw_categories := Some "images";
          SearchRequest.kw_language := None;
          SearchRequest.kw_time_range := None;
          SearchRequest.kw_safesearch := None |};
     mret (format_search_results response 150))
    (λ e, "Image search failed: " +:+ exn_str e).

(** [searxng_search_videos] *)
Definition searxng_search_videos (env : Settings.environment) (w : Http.world)
    (query : string) (page : Z) : result string :=
  client ← SearXNGClient.init None env;
  try_except
    (response ← SearXNGClient.search client w query page
       {| SearchRequest.kw_format := None;
          SearchRequest.kw_categories := Some "videos";
          SearchRequest.kw_language := None;
          SearchRequest.kw_time_range := None;
          SearchRequest.kw_safesearch := None |};
     mret (format_search_results response 150))
    (λ e, "Video search failed: " +:+ exn_str e).

End Tools.

End Server.

(** ** The properties, in the words of the specification *)

Module Spec.

(** Validity: a non-empty title and a present, non-blank URL. *)
Definition valid (r : SearchResult.t) : Prop :=
  SearchResult.title r ≠ "" ∧
  ∃ u, SearchResult.url r = Some u ∧ Py.blank u = false.

Global Instance valid_dec r : Decision (valid r).
Proof.
  unfold valid. destruct (SearchResult.url r) as [u|].
  - destruct (decide (SearchResult.title r ≠ "")) as [Ht|Ht];
      [destruct (Py.blank u) eqn:Hb|].
    + right. intros [_ (u' & [= <-] & Hu)]. congruence.
    + left. eauto.
    + right. tauto.
  - right. intros [_ (u' & [=] & _)].
Defined.

(** What a client hands back for the response [parsed] under the cap
    [cap]: valid results only, the first [cap] of the valid results of
    [parsed] when there are more than [cap], and all of them otherwise. *)
Definition filtered_and_capped (cap : Z) (parsed returned : SearchResponse.t) : Prop :=
  let valid_results := filter valid (SearchResponse.results parsed) in
  Forall valid (SearchResponse.results returned) ∧
  (cap < Py.llen valid_results →
     SearchResponse.results returned = take (Z.to_nat cap) valid_results) ∧
  (Py.llen valid_results ≤ cap → SearchResponse.results returned = valid_results).

(** The call of [search] got the decoded body [data] from the server. *)
Definition answered (self : SearXNGClient.t) (w : Http.world) (query : string)
    (page : Z) (kw : SearchRequest.kwargs) (data : json) : Prop :=
  ∃ request response,
    SearchRequest.init query page kw = Ok request ∧
    w (SearXNGClient.base_url self +:+ "/search") (SearchRequest.to_params request)
      = Ok response ∧
    Http.status_error response = None ∧
    Http.json_body response = Ok data.

(** The keyword arguments that give the category only. *)
Definition category_only (c : string) : SearchRequest.kwargs :=
  {| SearchRequest.kw_format := None;
     SearchRequest.kw_categories := Some c;
     SearchRequest.kw_language := None;
     SearchRequest.kw_time_range := None;
     SearchRequest.kw_safesearch := None |}.

(** The engine name an entry of [unresponsive_engines] stands for: a plain
    string, or the first element of a sequence [[engine_name, error_reason]]
    of two elements or more; nothing for any other shape. *)
Definition engine_name (item : json) : option string :=
  match item with
  | JStr s => Some s
  | JList (JStr name :: _ :: _) => Some name
  | _ => None
  end.

Section WithRuntime.
Context `{RT : Runtime}.

(** What the loop of [validate_unresponsive_engines] keeps of an entry:
    a plain string, or [str] of the first element of a list that has
    one. *)
Definition kept_name (item : json) : option string :=
  match item with
  | JStr s => Some s
  | JList (first :: _) => Some (py_str first)
  | _ => None
  end.

(** What the outbound parameters hold under the key of an optional field:
    the value, when one is given and is not the empty string. *)
Definition optional_param (o : option string) : option json :=
  match o with
  | Some s => if decide (s = "") then None else Some (JStr s)
  | None => None
  end.

(** What a tool entry point answers, for the outcome of its search: the
    formatted results, the failure line for an exception that is an
    [Exception], and the exception itself for one that is not. *)
Definition tool_text (label : string) (outcome : result SearchResponse.t)
  : result string :=
  match outcome with
  | Ok response => Ok (Server.format_search_results response 150)
  | Raise e =>
      if is_Exception e then Ok (label +:+ " failed: " +:+ exn_str e) else Raise e
  end.

(** The value supplied for an [int] field reads as an integer outside
    [[lo, hi]]. *)
Definition outside (lo hi : Z) (supplied : option json) : Prop :=
  ∃ v z, supplied = Some v ∧ validate_int v = Valid z ∧ (z < lo ∨ hi < z).

(** The value supplied for an enumerated field is none of the allowed
    strings. *)
Definition not_among (allowed : list string) (supplied : option json) : Prop :=
  ∃ v, supplied = Some v ∧ ∀ s, s ∈ allowed → v ≠ JStr s.

(** The inputs of a settings constructor that the specification rejects. *)
Definition rejected (kw : Settings.kwargs) (env : Settings.environment) : Prop :=
  outside 1 300 (Settings.source (Settings.kw_searxng_timeout kw) env "searxng_timeout")
  ∨ outside 1 100
      (Settings.source (Settings.kw_searxng_max_results kw) env "searxng_max_results")
  ∨ outside 1 65535 (Settings.source (Settings.kw_mcp_port kw) env "mcp_port")
  ∨ not_among ["stdio"; "sse"]
      (Settings.source (Settings.kw_mcp_transport kw) env "mcp_transport")
  ∨ not_among ["debug"; "info"; "warning"; "error"]
      (Settings.source (Settings.kw_log_level kw) env "log_level").
End WithRuntime.

End Spec.

(** ** A runtime to evaluate the definitions with

    It takes for a URL any string that starts with [http://] or [https://]
    and has something after it, adds the final slash of an empty path,
    reads decimal strings as integers, and coerces nothing else. *)

Module Sample.

Fixpoint has_slash (s : string) : bool :=
  match s with
  | "" => false
  | String c s' => Ascii.eqb c "/"%char || has_slash s'
  end.

Definition after_scheme (s : string) : option string :=
  if String.prefix "https://" s then Some (String.substring 8 (String.length s - 8) s)
  else if String.prefix "http://" s then Some (String.substring 7 (String.length s - 7) s)
  else None.

Definition parse_url (s : string) : option string :=
  match after_scheme s with
  | Some "" => None
  | Some rest => Some (if has_slash rest then s else s +:+ "/")
  | None => None
  end.

Definition int_of (v : json) : option Z :=
  match v with
  | JStr s => Z.of_int <$> NilEmpty.int_of_string s
  | _ => None
  end.

Definition str_of (v : json) : string :=
  match v with
  | JNull => "None"
  | JBool true => "True"
  | JBool false => "False"
  | JInt i => Py.str_int i
  | _ => "<object>"
  end.

Definition str_of_exn (e : exn) : string :=
  match e with
  | ValidationError model _ => "validation error for " +:+ model
  | TypeError _ => "argument must be a mapping"
  | Raised _ msg => msg
  | Interrupt _ msg => msg
  end.

Definition runtime : Runtime :=
  {| HttpUrl_parse := parse_url;
     lax_int := int_of;
     lax_float := λ _, None;
     lax_bool := λ _, None;
     str_other := str_of;
     str_builtin_exn := str_of_exn |}.

(** The body of the scenario of the specification, with one result more
    that has no title. *)
Definition body : json :=
  JDict [("query", JStr "python");
         ("number_of_results", JInt 7);
         ("results",
           JList [JDict [("url", JStr "https://python.org"); ("title", JStr "Python");
                         ("content", JStr "c"); ("engine", JStr "g")];
                  JDict [("url", JStr "https://pypi.org"); ("content", JStr "d")]]);
         ("suggestions", JList [JStr "python tutorial"]);
         ("unresponsive_engines", JList [JStr "bing"; JList [JStr "artic"; JStr "parsing error"]])].

(** A server that answers every request with [data]. *)
Definition serving (data : json) : Http.world :=
  λ _ _, Ok {| Http.status_error := None; Http.json_body := Ok data |}.

(** A server the call of which is cancelled: [client.get] raises
    [asyncio.CancelledError]. *)
Definition cancelled : Http.world :=
  λ _ _, Raise (Interrupt "CancelledError" "").

(** A server that answers every request with the status 500. *)
Definition failing : Http.world :=
  λ _ _, Ok {| Http.status_error := Some (Raised "HTTPStatusError" "Server error '500'");
               Http.json_body := Raise (Raised "JSONDecodeError" "Expecting value") |}.

End Sample.

(** ** client.py: the connection handle

    The [httpx.AsyncClient] objects are kept in a store, by order of
    creation: a handle is the index of its object, and the store holds for
    each object whether it [is_closed]. Closing an object is seen through
    every handle on it. *)

Module Connection.

Record state := {
  clients : list bool;
  _client : option nat;
}.

(** [__init__]: [self._client = None], and no object yet. *)
Definition initial : state := {| clients := []; _client := None |}.

(** [handle.is_closed]; a handle on no object counts as closed. *)
Definition is_closed (st : state) (h : nat) : bool :=
  default true (clients st !! h).

(** [httpx.AsyncClient(...)] assigned to [self._client] *)
Definition create (st : state) : nat * state :=
  let h := length (clients st) in
  (h, {| clients := clients st ++ [false]; _client := Some h |}).

(** [_get_client]: get or create the HTTP client. *)
Definition _get_client (st : state) : nat * state :=
  match _client st with
  | None => create st
  | Some h => if is_closed st h then create st else (h, st)
  end.

(** [close]: close the HTTP client. *)
Definition close (st : state) : state :=
  match _client st with
  | Some h =>
      if negb (is_closed st h)
      then {| clients := <[h := true]> (clients st); _client := None |}
      else st
  | None => st
  end.

(** [__aexit__] *)
Definition __aexit__ (st : state) : state := close st.

(** The handle of the client, if any, is a handle on an object of the
    store. *)
Definition wf (st : state) : Prop :=
  match _client st with
  | Some h => (h < length (clients st))%nat
  | None => True
  end.

Section Stateful.
Context `{RT : Runtime}.

(** [search], with the connection handle of the client: the request is
    built first, and the handle is asked for next. *)
Definition search (self : SearXNGClient.t) (st : state) (w : Http.world)
    (query : string) (page : Z) (kw : SearchRequest.kwargs)
  : result SearchResponse.t * state :=
  match SearchRequest.init query page kw with
  | Raise e => (Raise e, st)
  | Ok request =>
      let '(client, st) := _get_client st in
      let url := SearXNGClient.base_url self +:+ "/search" in
      (response ← w url (SearchRequest.to_params request);
       _ ← Http.raise_for_status response;
       data ← Http.json_body response;
       search_response ← SearchResponse.init data;
       let valid_results := SearchResponse.get_valid_results search_response in
       let valid_results :=
         if Py.llen valid_results >? SearXNGClient.max_results self
         then Py.list_slice_to valid_results (SearXNGClient.max_results self)
         else valid_results in
       mret (SearchResponse.set_results search_response valid_results),
       st)
  end.

(** [search_text], with the connection handle. *)
Definition search_text (self : SearXNGClient.t) (st : state) (w : Http.world)
    (query : string) (page : Z) : result SearchResponse.t * state :=
  search self st w query page
    {| SearchRequest.kw_format := None;
       SearchRequest.kw_categories := Some "general";
       SearchRequest.kw_language := None;
       SearchRequest.kw_time_range := None;
       SearchRequest.kw_safesearch := None |}.

(** [async with SearXNGClient() as client: try: ... except Exception ...]:
    the client is built with no handle, the body runs, and [__aexit__]
    closes the client whatever the body did; an exception the [try] does
    not catch leaves the scope after it. *)
Definition scoped (env : Settings.environment)
    (body : SearXNGClient.t → state → result string * state)
    (handler : exn → string) : result (string * state) :=
  client ← SearXNGClient.init None env;
  let '(outcome, st) := body client initial in
  let st := __aexit__ st in
  text ← Server.try_except outcome handler;
  mret (text, st).

(** [searxng_search], with the connection handle. *)
Definition searxng_search (env : Settings.environment) (w : Http.world)
    (query : string) (page : Z) : result (string * state) :=
  scoped env
    (λ client st,
       let '(outcome, st) := search_text client st w query page in
       (response ← outcome; mret (Server.format_search_results response 150), st))
    (λ e, "Search failed: " +:+ exn_str e).

(** [searxng_search_images], with the connection handle. *)
Definition searxng_search_images (env : Settings.environment) (w : Http.world)
    (query : string) (page : Z) : result (string * state) :=
  scoped env
    (λ client st,
       let '(outcome, st) :=
         search client st w query page
           {| SearchRequest.kw_format := None;
              SearchRequest.kw_categories := Some "images";
              SearchRequest.kw_language := None;
              SearchRequest.kw_time_range := None;
              SearchRequest.kw_safesearch := None |} in
       (response ← outcome; mret (Server.format_search_results response 150), st))
    (λ e, "Image search failed: " +:+ exn_str e).

(** [searxng_search_videos], with the connection handle. *)
Definition searxng_search_videos (env : Settings.environment) (w : Http.world)
    (query : string) (page : Z) : result (string * state) :=
  scoped env
    (λ client st,
       let '(outcome, st) :=
         search client st w query page
           {| SearchRequest.kw_format := None;
              SearchRequest.kw_categories := Some "videos";
              SearchRequest.kw_language := None;
              SearchRequest.kw_time_range := None;
              SearchRequest.kw_safesearch := None |} in
       (response ← outcome; mret (Server.format_search_results response 150), st))
    (λ e, "Video search failed: " +:+ exn_str e).

End Stateful.

End Connection.

(** ** server.py: the transport [main] starts *)

Module Main.

(** What [main] runs once the settings are loaded: the server on standard
    input and output, or the SSE application behind uvicorn. *)
Inductive served : Type :=
| RunStdio
| RunSse (host : string) (port : Z) (routes : list string).

(** The branch of [main] on [settings.mcp_transport]. *)
Definition serve (settings : Settings.t) : served :=
  if String.eqb (Settings.mcp_transport settings) "stdio"
  then RunStdio
  else RunSse "0.0.0.0" (Settings.mcp_port settings) ["/sse"; "/messages/"].

End Main.

(** ** Further notions for the properties of the code *)

Module Facts.

(** The fields of a result the formatter shows. *)
Definition shown (r : SearchResult.t) : string * option string * option string :=
  (SearchResult.title r, SearchResult.url r, SearchResult.content r).



(** A string made of [n] slashes. *)
Definition slashes (n : nat) : string := Py.join "" (replicate n "/").

(** The request [SearchRequest.init] builds when it builds one. *)
Definition request_of (query : string) (page : Z) (kw : SearchRequest.kwargs)
  : SearchRequest.t :=
  SearchRequest.mk query
    (default "json" (SearchRequest.kw_format kw))
    (default "general" (SearchRequest.kw_categories kw))
    page
    (SearchRequest.kw_language kw)
    (SearchRequest.kw_time_range kw)
    (default 1 (SearchRequest.kw_safesearch kw)).

(** A decoded body [SearchResponse] cannot be built from: it is no object,
    or it is an object whose [query] is missing or is not a string. *)
Definition malformed (data : json) : Prop :=
  (∀ d, data ≠ JDict d) ∨
  ∃ d, data = JDict d ∧
       (dict_get "query" d = None ∨
        ∃ v, dict_get "query" d = Some v ∧ ∀ s, v ≠ JStr s).

(** The server answers every request with the decoded body [data]. *)
Definition serves (w : Http.world) (data : json) : Prop :=
  ∀ url params, ∃ response,
    w url params = Ok response ∧ Http.json_body response = Ok data.

(** The arguments [SearchRequest] accepts. *)
Definition acceptable (query : string) (page : Z) (kw : SearchRequest.kwargs) : Prop :=
  query ≠ "" ∧ 1 ≤ page ∧
  ∀ z, SearchRequest.kw_safesearch kw = Some z → 0 ≤ z ≤ 2.

End Facts.

(** * Proofs *)

(** ** Strings and slices *)

Section PyFacts.

#[local] Arguments String.append : simpl nomatch.

Lemma truthy_true s : Py.truthy s = true ↔ s ≠ "".
Proof. by destruct s. Qed.

Lemma truthy_false s : Py.truthy s = false ↔ s = "".
Proof. by destruct s. Qed.

Lemma lstrip_blank s : Py.lstrip_by Py.isspace s = "" ↔ Py.blank s = true.
Proof.
  induction s as [|c s IH]; simpl; [done|].
  destruct (Py.isspace c); simpl; [done|]. split; discriminate.
Qed.

Lemma rstrip_blank s : Py.rstrip_by Py.isspace s = "" ↔ Py.blank s = true.
Proof.
  induction s as [|c s IH]; simpl; [done|].
  destruct (Py.rstrip_by Py.isspace s) as [|c' t].
  - assert (Py.blank s = true) as -> by by apply IH.
    destruct (Py.isspace c); simpl; split; done.
  - assert (Py.blank s = false) as ->.
    { destruct (Py.blank s); [|done]. by destruct IH as [_ ?%(fun f => f eq_refl)]. }
    rewrite andb_false_r. split; discriminate.
Qed.

Lemma blank_lstrip s : Py.blank (Py.lstrip_by Py.isspace s) = Py.blank s.
Proof.
  induction s as [|c s IH]; simpl; [done|].
  destruct (Py.isspace c) eqn:Hc; simpl; [done|]. by rewrite Hc.
Qed.

(** A string strips to nothing exactly when it is blank. *)
Lemma strip_blank s : Py.strip s = "" ↔ Py.blank s = true.
Proof. unfold Py.strip. by rewrite rstrip_blank, blank_lstrip. Qed.

Lemma slice_stop_lt n stop : 0 ≤ stop → stop < n → Py.slice_stop n stop = Z.to_nat stop.
Proof.
  intros H0 Hlt. unfold Py.slice_stop.
  destruct (Z.ltb_spec stop 0); [lia|]. f_equal. lia.
Qed.

Lemma slice_stop_ge n stop : 0 ≤ n → n ≤ stop → Py.slice_stop n stop = Z.to_nat n.
Proof.
  intros H0 Hle. unfold Py.slice_stop.
  destruct (Z.ltb_spec stop 0); [lia|]. f_equal. lia.
Qed.

Lemma list_slice_to_lt {A} (l : list A) stop :
  0 ≤ stop → stop < Py.llen l → Py.list_slice_to l stop = take (Z.to_nat stop) l.
Proof. intros. unfold Py.list_slice_to. by rewrite slice_stop_lt. Qed.

Lemma list_slice_to_take {A} (l : list A) (n : nat) :
  Py.list_slice_to l (Z.of_nat n) = take n l.
Proof.
  unfold Py.list_slice_to, Py.llen.
  destruct (decide (n < length l)%nat).
  - rewrite slice_stop_lt by lia. by rewrite Nat2Z.id.
  - rewrite slice_stop_ge by lia. rewrite Nat2Z.id.
    rewrite !take_ge by lia. done.
Qed.

Lemma str_app_empty_r s : s +:+ "" = s.
Proof. induction s; simpl; by f_equal. Qed.

Lemma str_app_assoc s1 s2 s3 : (s1 +:+ s2) +:+ s3 = s1 +:+ s2 +:+ s3.
Proof. induction s1; simpl; by f_equal. Qed.

Lemma str_length_app s1 s2 :
  String.length (s1 +:+ s2) = (String.length s1 + String.length s2)%nat.
Proof. induction s1; simpl; by f_equal. Qed.

(** The first [n] characters of a string that has that many. *)
Lemma substring_prefix n s :
  (n ≤ String.length s)%nat →
  ∃ rest, s = String.substring 0 n s +:+ rest ∧
          String.length (String.substring 0 n s) = n.
Proof.
  revert s. induction n as [|n IH]; intros s Hn.
  - exists s. by destruct s.
  - destruct s as [|c s]; simpl in *; [lia|].
    destruct (IH s) as (rest & Hs & Hl); [lia|].
    exists rest. split; [by rewrite <- Hs | by rewrite Hl].
Qed.

Lemma newlines_app s1 s2 :
  Py.newlines (s1 +:+ s2) = (Py.newlines s1 + Py.newlines s2)%nat.
Proof. induction s1 as [|c s1 IH]; simpl; [done|]. rewrite IH. lia. Qed.

(** Joining one part more. *)
Lemma join_snoc sep l x :
  l ≠ [] → Py.join sep (l ++ [x]) = Py.join sep l +:+ sep +:+ x.
Proof.
  unfold Py.join. induction l as [|y l IH]; [done|]. intros _.
  destruct l as [|z l]; simpl in *; [done|].
  rewrite IH by done. by rewrite !str_app_assoc.
Qed.

(** A part of a joined string stands in it as it is. *)
Lemma join_lookup sep (l : list string) i x :
  l !! i = Some x → ∃ before after, Py.join sep l = before +:+ x +:+ after.
Proof.
  unfold Py.join. revert i. induction l as [|y l IH]; intros i Hi; [done|].
  destruct i as [|i]; simpl in Hi.
  - injection Hi as ->. exists "". destruct l as [|z l]; simpl.
    + exists "". by rewrite str_app_empty_r.
    + by eexists.
  - destruct (IH _ Hi) as (b & a & Hj). destruct l as [|z l]; [done|].
    exists (y +:+ sep +:+ b), a. simpl in *. rewrite Hj. by rewrite !str_app_assoc.
Qed.

End PyFacts.

(** ** Validation *)

Section ValidatedFacts.

Lemma ap_Valid_inv {A B} (f : validated (A → B)) (x : validated A) (b : B) :
  f <*> x = Valid b → ∃ g a, f = Valid g ∧ x = Valid a ∧ b = g a.
Proof. destruct f, x; simpl; intros [=]; eauto. Qed.

Lemma ap_Invalid_l {A B} (f : validated (A → B)) (x : validated A) es :
  f = Invalid es → ∃ es', f <*> x = Invalid es'.
Proof. intros ->. destruct x; simpl; eauto. Qed.

Lemma ap_Invalid_r {A B} (f : validated (A → B)) (x : validated A) es :
  x = Invalid es → ∃ es', f <*> x = Invalid es'.
Proof. intros ->. destruct f; simpl; eauto. Qed.

Lemma map_Valid_inv {A B} (g : A → B) (x : validated A) (b : B) :
  V.map g x = Valid b → ∃ a, x = Valid a ∧ b = g a.
Proof. destruct x; simpl; intros [=]; eauto. Qed.

Lemma at_loc_Valid_inv {A} name (x : validated A) (a : A) :
  V.at_loc name x = Valid a → x = Valid a.
Proof. by destruct x. Qed.

Lemma at_loc_Invalid {A} name (x : validated A) es :
  x = Invalid es → ∃ es', V.at_loc name x = Invalid es'.
Proof. intros ->. simpl. eauto. Qed.

Lemma check_ge_Valid_inv lo x z : check_ge lo x = Valid z → x = Valid z ∧ lo ≤ z.
Proof.
  destruct x as [i|]; simpl; [|done].
  destruct (Z.leb_spec lo i); [|done]. intros [= ->]. done.
Qed.

Lemma check_le_Valid_inv hi x z : check_le hi x = Valid z → x = Valid z ∧ z ≤ hi.
Proof.
  destruct x as [i|]; simpl; [|done].
  destruct (Z.leb_spec i hi); [|done]. intros [= ->]. done.
Qed.

(** A value outside the bounds of an [int] field does not validate. *)
Lemma check_range_Invalid lo hi z :
  z < lo ∨ hi < z → ∃ es, check_le hi (check_ge lo (Valid z)) = Invalid es.
Proof.
  intros Hz. simpl. destruct (Z.leb_spec lo z); simpl; [|by eexists].
  destruct (Z.leb_spec z hi); [lia|]. by eexists.
Qed.

(** One item that does not validate spoils the list. *)
Lemma items_from_Invalid {A} (validate : json → validated A) i l x es :
  x ∈ l → validate x = Invalid es → ∃ es', V.items_from validate i l = Invalid es'.
Proof.
  intros Hx Hv. revert i. induction Hx as [x l|x y l Hx IH]; intros i; simpl.
  - rewrite Hv. simpl. by eexists.
  - destruct (IH Hv (S i)) as [es' ->]. eapply ap_Invalid_r. done.
Qed.

(** A list of strings validates to itself. *)
Lemma items_from_strings i (l : list string) :
  V.items_from validate_str i (JStr <$> l) = Valid l.
Proof.
  revert i. induction l as [|s l IH]; intros i; simpl; [done|]. by rewrite IH.
Qed.

End ValidatedFacts.

(** ** The settings *)

Section SettingsFacts.
Context `{RT : Runtime}.

Lemma setting_range name kw env default lo hi z :
  lo ≤ default ≤ hi →
  Settings.setting name kw env default (λ v, check_le hi (check_ge lo (validate_int v)))
    = Valid z →
  lo ≤ z ≤ hi.
Proof.
  intros Hd. unfold Settings.setting.
  destruct (Settings.source kw env name) as [v|]; [|intros [= <-]; done].
  intros (H1 & ?)%at_loc_Valid_inv%check_le_Valid_inv.
  apply check_ge_Valid_inv in H1 as [_ ?]. lia.
Qed.

(** The fields of settings that were constructed. *)
Lemma init_Ok_inv kw env s :
  Settings.init kw env = Ok s →
  1 ≤ Settings.searxng_timeout s ≤ 300 ∧
  1 ≤ Settings.searxng_max_results s ≤ 100 ∧
  1 ≤ Settings.mcp_port s ≤ 65535.
Proof.
  unfold Settings.init, V.raise_for.
  destruct (_ <*> _) as [s'|] eqn:Hv; [|done]. intros [= ->].
  repeat (apply ap_Valid_inv in Hv as (? & ? & Hv & ? & ->)).
  injection Hv as <-. simpl.
  split; [|split]; (eapply setting_range; [|eassumption]; lia).
Qed.

(** A field that does not validate makes the constructor raise. *)
Lemma raise_for_Invalid {A} model (v : validated A) :
  (∃ es, v = Invalid es) →
  ∃ es, V.raise_for model v = Raise (ValidationError model es).
Proof. intros [es ->]. simpl. eauto. Qed.

End SettingsFacts.

(** ** The client *)

Section ClientFacts.
Context `{RT : Runtime}.

(** [is_valid] decides the validity of the specification. *)
Lemma is_valid_spec r : SearchResult.is_valid r = true ↔ Spec.valid r.
Proof.
  unfold SearchResult.is_valid, Spec.valid.
  destruct (SearchResult.url r) as [u|]; simpl.
  - rewrite andb_true_iff, !truthy_true, strip_blank. split.
    + intros [Ht Hb]. split; [done|]. exists u. split; [done|].
      by destruct (Py.blank u).
    + intros [Ht (u' & [= <-] & Hb)]. split; [done|]. congruence.
  - split; [done|]. intros [_ (u & [=] & _)].
Qed.

Lemma get_valid_results_filter (self : SearchResponse.t) :
  SearchResponse.get_valid_results self = filter Spec.valid (SearchResponse.results self).
Proof.
  unfold SearchResponse.get_valid_results.
  induction (SearchResponse.results self) as [|r l IH]; simpl; [done|].
  destruct (SearchResult.is_valid r) eqn:Hr.
  - rewrite filter_cons_True by by apply is_valid_spec. by f_equal.
  - rewrite filter_cons_False; [done|]. intros ?%is_valid_spec. congruence.
Qed.

(** What a call of [search] that returns went through. *)
Lemma search_Ok_inv self w query page kw resp :
  SearXNGClient.search self w query page kw = Ok resp →
  ∃ data parsed,
    Spec.answered self w query page kw data ∧
    SearchResponse.init data = Ok parsed ∧
    resp = SearchResponse.set_results parsed
             (let valid_results := SearchResponse.get_valid_results parsed in
              if Py.llen valid_results >? SearXNGClient.max_results self
              then Py.list_slice_to valid_results (SearXNGClient.max_results self)
              else valid_results).
Proof.
  unfold SearXNGClient.search, Spec.answered, Http.raise_for_status.
  destruct (SearchRequest.init query page kw) as [request|] eqn:Hreq; simpl; [|done].
  destruct (w _ _) as [response|] eqn:Hw; simpl; [|done].
  destruct (Http.status_error response) eqn:Hst; simpl; [done|].
  destruct (Http.json_body response) as [data|] eqn:Hdata; simpl; [|done].
  destruct (SearchResponse.init data) as [parsed|] eqn:Hparsed; simpl; [|done].
  intros [= <-]. exists data, parsed. split; [|done].
  exists request, response. done.
Qed.

(** A call of [search] raises as soon as one of its steps does. *)
Lemma search_init_raises self w query page kw data e :
  (∀ url params, ∃ response,
      w url params = Ok response ∧ Http.json_body response = Ok data) →
  SearchResponse.init data = Raise e →
  ∃ e', SearXNGClient.search self w query page kw = Raise e'.
Proof.
  intros Hw Hinit. unfold SearXNGClient.search, Http.raise_for_status.
  destruct (SearchRequest.init query page kw) as [request|]; simpl; [|by eexists].
  destruct (Hw (SearXNGClient.base_url self +:+ "/search")
              (SearchRequest.to_params request)) as (response & -> & Hdata); simpl.
  destruct (Http.status_error response); simpl; [by eexists|].
  rewrite Hdata; simpl. rewrite Hinit; simpl. by eexists.
Qed.

End ClientFacts.

(** C1. Every successful call of [SearXNGClient.search], on a client built
    from constructed settings, returns valid results only; when the valid
    results parsed from the body of the server are more than the configured
    [max_results], it returns exactly the first [max_results] of them, in
    the order of the server (and all of them otherwise): the cap counts
    valid results only. *)
Theorem search_filters_then_caps `{RT : Runtime} kw_s env s w query page kw resp :
  Settings.init kw_s env = Ok s →
  SearXNGClient.search (SearXNGClient.of_settings s) w query page kw = Ok resp →
  ∃ data parsed,
    Spec.answered (SearXNGClient.of_settings s) w query page kw data ∧
    SearchResponse.init data = Ok parsed ∧
    Spec.filtered_and_capped (Settings.searxng_max_results s) parsed resp.
Proof.
  intros (_ & Hcap & _)%init_Ok_inv (data & parsed & Hans & Hparsed & ->)%search_Ok_inv.
  exists data, parsed. split; [done|]. split; [done|].
  unfold Spec.filtered_and_capped. simpl.
  rewrite get_valid_results_filter.
  set (valid_results := filter Spec.valid (SearchResponse.results parsed)).
  assert (Forall Spec.valid valid_results) as Hall.
  { apply Forall_forall. intros r Hr. by apply list_elem_of_filter in Hr as [? _]. }
  destruct (Z.gtb_spec (Py.llen valid_results) (Settings.searxng_max_results s)) as [Hgt|Hle].
  - rewrite list_slice_to_lt by lia. split; [by apply Forall_take|]. split; [done|lia].
  - split; [done|]. split; [lia|done].
Qed.

Lemma search_filters_then_caps_witness :
  ∃ s resp,
    Settings.init (RT:=Sample.runtime) Settings.no_kwargs ∅ = Ok s ∧
    SearXNGClient.search (RT:=Sample.runtime) (SearXNGClient.of_settings s)
      (Sample.serving Sample.body) "python" 1 SearchRequest.no_kwargs = Ok resp ∧
    length (SearchResponse.results resp) = 1%nat ∧
    ∃ data parsed,
      Spec.answered (SearXNGClient.of_settings s)
        (Sample.serving Sample.body) "python" 1 SearchRequest.no_kwargs data ∧
      SearchResponse.init (RT:=Sample.runtime) data = Ok parsed ∧
      Spec.filtered_and_capped (Settings.searxng_max_results s) parsed resp.
Proof.
  eexists _, _. split; [vm_compute; reflexivity|].
  split; [vm_compute; reflexivity|]. split; [reflexivity|].
  eapply (search_filters_then_caps (RT:=Sample.runtime) Settings.no_kwargs ∅);
    vm_compute; reflexivity.
Defined.

(** The cap counts valid results only: under a cap of one, a body of three
    results whose first has no title gives back the second. *)
Example search_caps_after_filtering :
  ∃ s,
    Settings.init (RT:=Sample.runtime)
      {| Settings.kw_searxng_url := None; Settings.kw_searxng_timeout := None;
         Settings.kw_searxng_max_results := Some (JInt 1);
         Settings.kw_mcp_transport := None; Settings.kw_mcp_port := None;
         Settings.kw_log_level := None; Settings.kw_cache_enabled := None |} ∅ = Ok s ∧
    (resp ← SearXNGClient.search (RT:=Sample.runtime) (SearXNGClient.of_settings s)
              (Sample.serving
                 (JDict [("query", JStr "q");
                         ("results",
                           JList [JDict [("url", JStr "https://a.example")];
                                  JDict [("url", JStr "https://b.example"); ("title", JStr "B")];
                                  JDict [("url", JStr "https://c.example"); ("title", JStr "C")]])]))
              "q" 1 SearchRequest.no_kwargs;
     mret (SearchResult.title <$> SearchResponse.results resp)) = Ok ["B"].
Proof. eexists. split; vm_compute; reflexivity. Qed.

(** C10. A successful call of [SearXNGClient.search] changes no field of the
    parsed response but [results]: [query], [number_of_results],
    [suggestions], [corrections] and [unresponsive_engines] are those of the
    response parsed from the body of the server; [number_of_results] is not
    brought in line with the length of [results]. *)
Theorem search_touches_results_only `{RT : Runtime} self w query page kw resp :
  SearXNGClient.search self w query page kw = Ok resp →
  ∃ data parsed,
    Spec.answered self w query page kw data ∧
    SearchResponse.init data = Ok parsed ∧
    SearchResponse.query resp = SearchResponse.query parsed ∧
    SearchResponse.number_of_results resp = SearchResponse.number_of_results parsed ∧
    SearchResponse.suggestions resp = SearchResponse.suggestions parsed ∧
    SearchResponse.corrections resp = SearchResponse.corrections parsed ∧
    SearchResponse.unresponsive_engines resp = SearchResponse.unresponsive_engines parsed ∧
    resp = SearchResponse.set_results parsed (SearchResponse.results resp).
Proof.
  intros (data & parsed & Hans & Hparsed & ->)%search_Ok_inv.
  exists data, parsed. by repeat split.
Qed.

Lemma search_touches_results_only_witness :
  ∃ self resp,
    self = SearXNGClient.of_settings
             (Settings.mk "https://searxng.pixelcrazed.com/" 30 10 "stdio" 3000 "info" false) ∧
    SearXNGClient.search (RT:=Sample.runtime) self
      (Sample.serving Sample.body) "python" 1 SearchRequest.no_kwargs = Ok resp ∧
    SearchResponse.number_of_results resp = 7 ∧
    length (SearchResponse.results resp) = 1%nat ∧
    ∃ data parsed,
      Spec.answered self (Sample.serving Sample.body) "python" 1 SearchRequest.no_kwargs data ∧
      SearchResponse.init (RT:=Sample.runtime) data = Ok parsed ∧
      SearchResponse.query resp = SearchResponse.query parsed ∧
      SearchResponse.number_of_results resp = SearchResponse.number_of_results parsed ∧
      SearchResponse.suggestions resp = SearchResponse.suggestions parsed ∧
      SearchResponse.corrections resp = SearchResponse.corrections parsed ∧
      SearchResponse.unresponsive_engines resp = SearchResponse.unresponsive_engines parsed ∧
      resp = SearchResponse.set_results parsed (SearchResponse.results resp).
Proof.
  eexists _, _. split; [reflexivity|].
  split; [vm_compute; reflexivity|]. split; [reflexivity|]. split; [reflexivity|].
  apply (search_touches_results_only (RT:=Sample.runtime)).
  vm_compute; reflexivity.
Defined.

(** ** The models *)

Section ModelFacts.
Context `{RT : Runtime}.

(** A result whose [url] is a non-empty string that pydantic does not take
    for an http(s) URL does not validate. *)
Lemma bad_url_Invalid d s :
  dict_get "url" d = Some (JStr s) → s ≠ "" → HttpUrl_parse s = None →
  ∃ es, SearchResult.validate (JDict d) = Invalid es.
Proof.
  intros Hget Hs Hparse. simpl. unfold SearchResult.validate_fields.
  assert (∃ es, field d ["url"] "url" (Some None)
                  (λ v, validate_Optional validate_HttpUrl (SearchResult.validate_url v))
                = Invalid es) as [es Hurl].
  { unfold field. simpl. rewrite Hget.
    destruct s as [|c s]; [done|]. simpl. rewrite Hparse. simpl. by eexists. }
  rewrite Hurl. cbn [V.ap V.errors_of]. by eexists.
Qed.

(** A response one of whose results does not validate is not constructed. *)
Lemma bad_result_raises d items x es :
  dict_get "results" d = Some (JList items) → x ∈ items →
  SearchResult.validate x = Invalid es →
  ∃ es', SearchResponse.init (JDict d) = Raise (ValidationError "SearchResponse" es').
Proof.
  intros Hget Hx Hv. simpl. apply raise_for_Invalid.
  unfold SearchResponse.validate_fields.
  assert (∃ es0, field d ["results"] "results" (Some [])
                   (validate_List SearchResult.validate) = Invalid es0) as [es0 Hres].
  { unfold field. simpl. rewrite Hget. simpl.
    destruct (items_from_Invalid SearchResult.validate 0 items x es Hx Hv) as [es1 ->].
    simpl. by eexists. }
  rewrite Hres.
  destruct (ap_Invalid_r
              (Valid SearchResponse.mk
                 <*> field d ["query"] "query" None validate_str
                 <*> field d ["number_of_results"] "number_of_results" (Some 0) validate_int)
              (Invalid es0) es0 eq_refl) as [es1 ->].
  cbn [V.ap V.errors_of]. by eexists.
Qed.

End ModelFacts.

(** C9. When the body of the server holds a result object whose [url] is a
    non-empty string that is not a valid http(s) URL, the construction of
    the [SearchResponse] raises a validation error, and so does the whole
    call of [search]: the result is not merely dropped, since [validate_url]
    leaves such a string as it is. *)
Theorem bad_url_fails_whole_search `{RT : Runtime} self w query page kw d items r s :
  dict_get "results" d = Some (JList items) →
  JDict r ∈ items →
  dict_get "url" r = Some (JStr s) →
  s ≠ "" →
  HttpUrl_parse s = None →
  SearchResult.validate_url (JStr s) = JStr s ∧
  (∃ es, SearchResponse.init (JDict d) = Raise (ValidationError "SearchResponse" es)) ∧
  ((∀ url params, ∃ response,
       w url params = Ok response ∧ Http.json_body response = Ok (JDict d)) →
   ∃ e, SearXNGClient.search self w query page kw = Raise e).
Proof.
  intros Hres Hr Hurl Hs Hparse.
  destruct (bad_url_Invalid r s Hurl Hs Hparse) as [es Hv].
  destruct (bad_result_raises d items (JDict r) es Hres Hr Hv) as [es' Hinit].
  split; [by destruct s|]. split; [by eexists|].
  intros Hw. by eapply search_init_raises.
Qed.

Lemma bad_url_fails_whole_search_witness :
  let d := [("query", JStr "python");
            ("results",
              JList [JDict [("url", JStr "https://python.org"); ("title", JStr "Python")];
                     JDict [("url", JStr "not a url"); ("title", JStr "Broken")]])] in
  SearchResponse.init (RT:=Sample.runtime) (JDict d)
    = Raise (ValidationError "SearchResponse"
               [{| loc := ["results"; "1"; "url"]; kind := "url_parsing" |}]) ∧
  SearchResult.validate_url (JStr "not a url") = JStr "not a url" ∧
  (∃ es, SearchResponse.init (RT:=Sample.runtime) (JDict d)
         = Raise (ValidationError "SearchResponse" es)) ∧
  ((∀ url params, ∃ response,
       Sample.serving (JDict d) url params = Ok response ∧
       Http.json_body response = Ok (JDict d)) →
   ∃ e, SearXNGClient.search (RT:=Sample.runtime)
          (SearXNGClient.of_settings
             (Settings.mk "https://searxng.pixelcrazed.com/" 30 10 "stdio" 3000 "info" false))
          (Sample.serving (JDict d)) "python" 1 SearchRequest.no_kwargs = Raise e).
Proof.
  intros d. split; [vm_compute; reflexivity|].
  apply (bad_url_fails_whole_search (RT:=Sample.runtime) _ _ _ _ _ d
           [JDict [("url", JStr "https://python.org"); ("title", JStr "Python")];
            JDict [("url", JStr "not a url"); ("title", JStr "Broken")]]
           [("url", JStr "not a url"); ("title", JStr "Broken")] "not a url").
  - reflexivity.
  - apply list_elem_of_In. simpl. right. left. reflexivity.
  - reflexivity.
  - discriminate.
  - reflexivity.
Defined.

Section EngineFacts.
Context `{RT : Runtime}.

(** The loop of [validate_unresponsive_engines], started on [acc]. *)
Lemma engines_loop (items acc : list json) :
  foldl (λ result item,
           match item with
           | JStr s => result ++ [JStr s]
           | JList (first :: _) => result ++ [JStr (py_str first)]
           | _ => result
           end) acc items
  = acc ++ (JStr <$> omap Spec.kept_name items).
Proof.
  revert acc. induction items as [|item items IH]; intros acc; simpl.
  - by rewrite app_nil_r.
  - rewrite IH. destruct item as [| | | |s|[|first rest]|]; simpl; try done.
    + by rewrite <- List.app_assoc.
    + by rewrite <- List.app_assoc.
Qed.

Lemma normalize_list items :
  SearchResponse.normalize_unresponsive_engines (JList items)
  = Valid (omap Spec.kept_name items).
Proof.
  unfold SearchResponse.normalize_unresponsive_engines. simpl.
  rewrite engines_loop. simpl. apply items_from_strings.
Qed.

End EngineFacts.

(** C2, as the code has it. For every list given as [unresponsive_engines],
    the normalized value keeps each plain string as it is and, for each
    element that is a list of one element or more, [str] of its first
    element, in the original order; every other element (a scalar that is
    not a string, an object, an empty list) is dropped. Whatever the
    specification keeps of an element, the code keeps the same; and
    [["bing", ["artic", "parsing error"]]] gives [["bing", "artic"]]. *)
Theorem unresponsive_engines_normalized `{RT : Runtime} :
  (∀ items,
     SearchResponse.normalize_unresponsive_engines (JList items)
     = Valid (omap Spec.kept_name items)) ∧
  (∀ item name, Spec.engine_name item = Some name → Spec.kept_name item = Some name) ∧
  SearchResponse.normalize_unresponsive_engines
    (JList [JStr "bing"; JList [JStr "artic"; JStr "parsing error"]])
  = Valid ["bing"; "artic"].
Proof.
  split; [apply normalize_list|]. split.
  - intros item name. destruct item as [| | | |s|[|[] [|]]|]; simpl; done.
  - by rewrite normalize_list.
Qed.

(** C2, as it is stated, fails on a list of one element: the specification
    drops it, and the code keeps its element. *)
Lemma unresponsive_engines_one_element_kept :
  SearchResponse.normalize_unresponsive_engines (RT:=Sample.runtime)
    (JList [JList [JStr "artic"]]) = Valid ["artic"] ∧
  omap Spec.engine_name [JList [JStr "artic"]] = [] ∧
  SearchResponse.normalize_unresponsive_engines (RT:=Sample.runtime)
    (JList [JList [JStr "artic"]])
  ≠ Valid (omap Spec.engine_name [JList [JStr "artic"]]).
Proof. split; [reflexivity|]. split; [reflexivity|]. discriminate. Qed.

(** C3, as the code has it. The parameters [to_params] builds always hold
    the keys [q], [format], [categories], [pageno] and [safesearch] with the
    values of the request; they hold [language] (and [time_range]) exactly
    when the field is given and is not the empty string, with the given
    value; and they hold no other key. *)
Theorem to_params_keys (self : SearchRequest.t) :
  let params := SearchRequest.to_params self in
  params !! "q" = Some (JStr (SearchRequest.q self)) ∧
  params !! "format" = Some (JStr (SearchRequest.format self)) ∧
  params !! "categories" = Some (JStr (SearchRequest.categories self)) ∧
  params !! "pageno" = Some (JInt (SearchRequest.pageno self)) ∧
  params !! "safesearch" = Some (JInt (SearchRequest.safesearch self)) ∧
  params !! "language" = Spec.optional_param (SearchRequest.language self) ∧
  params !! "time_range" = Spec.optional_param (SearchRequest.time_range self) ∧
  ∀ k, is_Some (params !! k) →
       k ∈ ["q"; "format"; "categories"; "pageno"; "safesearch"; "language"; "time_range"].
Proof.
  unfold SearchRequest.to_params, Spec.optional_param.
  destruct (SearchRequest.language self) as [[|c l]|],
           (SearchRequest.time_range self) as [[|c' t]|]; simpl;
    (repeat split; [by simplify_map_eq..|]);
    intros k [v Hk]; rewrite !lookup_insert, lookup_empty in Hk;
    repeat case_decide; subst; try done; set_solver.
Qed.

(** C3, as it is stated, fails for a language given as the empty string:
    the key is left out. *)
Lemma to_params_drops_empty_language :
  ∃ request,
    SearchRequest.init "python" 1
      {| SearchRequest.kw_format := None; SearchRequest.kw_categories := None;
         SearchRequest.kw_language := Some ""; SearchRequest.kw_time_range := None;
         SearchRequest.kw_safesearch := None |} = Ok request ∧
    SearchRequest.language request = Some "" ∧
    SearchRequest.to_params request !! "language" = None ∧
    SearchRequest.to_params request !! "language" ≠ Some (JStr "").
Proof.
  eexists. split; [vm_compute; reflexivity|]. split; [reflexivity|].
  split; [vm_compute; reflexivity|]. vm_compute. discriminate.
Qed.

(** ** The formatter *)

Section FormatFacts.

#[local] Arguments String.append : simpl nomatch.

(** The snippet of a content, for a limit that is not negative. *)
Lemma snippet_long c L :
0 ≤ L → L < Py.len c →
Server.snippet (Some c) L = String.substring 0 (Z.to_nat L) c +:+ "...".
Proof.
intros H0 Hlt. unfold Server.snippet, Py.str_slice_to.
assert (Py.truthy c = true) as ->.
{ apply truthy_true. intros ->. unfold Py.len in Hlt. simpl in Hlt. lia. }
destruct (Z.gtb_spec (Py.len c) L); [|lia]. simpl.
by rewrite slice_stop_lt.
Qed.

Lemma snippet_short c L : Py.len c ≤ L → Server.snippet (Some c) L = c.
Proof.
intros Hle. unfold Server.snippet, Server.or_empty.
destruct (Z.gtb_spec (Py.len c) L); [lia|]. rewrite andb_false_r.
by destruct c.
Qed.

(** The parts the formatter joins when there are results. *)
Lemma format_parts response L :
SearchResponse.results response ≠ [] →
Server.format_search_results response L
= Py.join (Py.NL +:+ Py.NL)
    (([Server.header (SearchResponse.query response)]
      ++ imap (λ i r, Server.block L (Z.of_nat i + 1) r) (SearchResponse.results response))
     ++ match SearchResponse.suggestions response with
        | [] => []
        | _ :: _ => [Server.related (SearchResponse.suggestions response)]
        end).
Proof.
intros Hne. unfold Server.format_search_results.
destruct (SearchResponse.results response) as [|r rs] eqn:Hrs; [done|].
destruct (SearchResponse.suggestions response); [|done].
by rewrite app_nil_r.
Qed.

End FormatFacts.

(** C4. For every result the formatter renders with a truncation length [L]
    that is not negative: the block of the result ends with its snippet;
    when the content is longer than [L] the snippet is the first [L]
    characters of the content followed by ["..."], and when the content has
    at most [L] characters the snippet is the content, with no ellipsis. The
    block stands in the output of the formatter as it is. *)
Theorem snippet_truncated (L : Z) (r : SearchResult.t) (c : string) :
  0 ≤ L →
  SearchResult.content r = Some c →
  ∃ snippet,
    (∀ i, Server.block L i r
          = Py.str_int i +:+ ". " +:+ SearchResult.title r +:+ Py.NL
              +:+ "   URL: " +:+ Server.fmt_url (SearchResult.url r) +:+ Py.NL
              +:+ "   " +:+ snippet) ∧
    (L < Py.len c →
       ∃ first rest, c = first +:+ rest ∧ Py.len first = L ∧ snippet = first +:+ "...") ∧
    (Py.len c ≤ L → snippet = c) ∧
    (∀ response (i : nat),
       SearchResponse.results response !! i = Some r →
       ∃ before after,
         Server.format_search_results response L
         = before +:+ Server.block L (Z.of_nat i + 1) r +:+ after).
Proof.
  intros H0 Hc. exists (Server.snippet (Some c) L). split; [|split; [|split]].
  - intros i. unfold Server.block. by rewrite Hc.
  - intros Hlt. rewrite snippet_long by done.
    destruct (substring_prefix (Z.to_nat L) c) as (rest & Hrest & Hlen).
    { unfold Py.len in Hlt. lia. }
    exists (String.substring 0 (Z.to_nat L) c), rest.
    split; [done|]. split; [|done]. unfold Py.len. rewrite Hlen. lia.
  - apply snippet_short.
  - intros response i Hi. rewrite format_parts by by intros Hnil; rewrite Hnil in Hi.
    apply join_lookup with (i := S i).
    rewrite <- List.app_assoc. simpl. rewrite lookup_app_l.
    + rewrite list_lookup_imap, Hi. done.
    + rewrite length_imap. by apply lookup_lt_Some in Hi.
Qed.

Lemma snippet_truncated_witness :
  let r := SearchResult.mk (Some "https://python.org/") "Python" (Some "abcdef") None None
             "g" [] (S754_zero false) "general" in
  0 ≤ 3 ∧ SearchResult.content r = Some "abcdef" ∧
  Server.snippet (SearchResult.content r) 3 = "abc..." ∧
  Server.snippet (SearchResult.content r) 6 = "abcdef" ∧
  ∃ snippet,
    (∀ i, Server.block 3 i r
          = Py.str_int i +:+ ". " +:+ SearchResult.title r +:+ Py.NL
              +:+ "   URL: " +:+ Server.fmt_url (SearchResult.url r) +:+ Py.NL
              +:+ "   " +:+ snippet) ∧
    (3 < Py.len "abcdef" →
       ∃ first rest, "abcdef" = first +:+ rest ∧ Py.len first = 3 ∧
                     snippet = first +:+ "...") ∧
    (Py.len "abcdef" ≤ 3 → snippet = "abcdef") ∧
    (∀ response (i : nat),
       SearchResponse.results response !! i = Some r →
       ∃ before after,
         Server.format_search_results response 3
         = before +:+ Server.block 3 (Z.of_nat i + 1) r +:+ after).
Proof.
  intros r. split; [lia|]. split; [reflexivity|]. split; [reflexivity|].
  split; [reflexivity|]. apply (snippet_truncated 3 r "abcdef"); [lia|reflexivity].
Defined.

(** C7. For every response whose [results] is empty the formatter returns
    ["No results: "] followed by the query, whatever the other fields and
    the truncation length: one line more than the query has, and nothing
    after it. *)
Theorem format_no_results (response : SearchResponse.t) (L : Z) :
  SearchResponse.results response = [] →
  Server.format_search_results response L
    = "No results: " +:+ SearchResponse.query response ∧
  Py.newlines (Server.format_search_results response L)
    = Py.newlines (SearchResponse.query response) ∧
  ∀ n suggestions corrections engines L',
    Server.format_search_results
      (SearchResponse.mk (SearchResponse.query response) n [] suggestions corrections engines)
      L'
    = Server.format_search_results response L.
Proof.
  intros Hnil. unfold Server.format_search_results. rewrite Hnil. simpl.
  split; [done|]. split; [|done]. by rewrite newlines_app.
Qed.

Lemma format_no_results_witness :
  let response := SearchResponse.mk "xyzabc123" 42 [] ["other"] ["fix"] ["bing"] in
  SearchResponse.results response = [] ∧
  Server.format_search_results response 150 = "No results: xyzabc123" ∧
  Py.newlines (Server.format_search_results response 150) = 0%nat.
Proof.
  intros response. split; [reflexivity|].
  destruct (format_no_results response 150 eq_refl) as (Hout & Hnl & _).
  split; [exact Hout | exact Hnl].
Defined.

(** C8. For every response with results: when [suggestions] is not empty,
    the output is the output without suggestions followed by one more part,
    the line ["Related: "] with the first three suggestions at most,
    separated by [", "]; and the output depends neither on [corrections]
    nor on [unresponsive_engines]. *)
Theorem format_suggestions_and_frame (response : SearchResponse.t) (L : Z) :
  SearchResponse.results response ≠ [] →
  (SearchResponse.suggestions response ≠ [] →
   Server.format_search_results response L
   = Server.format_search_results
       (SearchResponse.mk (SearchResponse.query response)
          (SearchResponse.number_of_results response) (SearchResponse.results response)
          [] (SearchResponse.corrections response)
          (SearchResponse.unresponsive_engines response)) L
     +:+ Py.NL +:+ Py.NL +:+ Py.NL +:+ "Related: "
     +:+ Py.join ", " (take 3 (SearchResponse.suggestions response))) ∧
  (∀ corrections engines,
     Server.format_search_results
       (SearchResponse.mk (SearchResponse.query response)
          (SearchResponse.number_of_results response) (SearchResponse.results response)
          (SearchResponse.suggestions response) corrections engines) L
     = Server.format_search_results response L).
Proof.
  intros Hne. split; [|by destruct response].
  intros Hs. rewrite !format_parts by done.
  cbn [SearchResponse.results SearchResponse.suggestions SearchResponse.query].
  destruct (SearchResponse.suggestions response) as [|s ss] eqn:Hss; [done|].
  rewrite app_nil_r, join_snoc by done. unfold Server.related.
  change 3 with (Z.of_nat 3). rewrite list_slice_to_take.
  by rewrite !str_app_assoc.
Qed.

Lemma format_suggestions_and_frame_witness :
  let r := SearchResult.mk (Some "https://python.org/") "Python" (Some "c") None None
             "g" [] (S754_zero false) "general" in
  let response := SearchResponse.mk "python" 1 [r] ["a"; "b"; "c"; "d"] ["x"] ["bing"] in
  SearchResponse.results response ≠ [] ∧
  SearchResponse.suggestions response ≠ [] ∧
  Server.format_search_results response 150
  = Server.format_search_results (SearchResponse.mk "python" 1 [r] [] ["x"] ["bing"]) 150
    +:+ Py.NL +:+ Py.NL +:+ Py.NL +:+ "Related: a, b, c".
Proof.
  intros r response. split; [discriminate|]. split; [discriminate|].
  apply (format_suggestions_and_frame response 150); discriminate.
Defined.

(** ** The settings constructor and the tools *)

Section ToolFacts.
Context `{RT : Runtime}.

Lemma ap_spoiled_l {A B} (f : validated (A → B)) (x : validated A) :
  (∃ es, f = Invalid es) → ∃ es, f <*> x = Invalid es.
Proof. intros [es Hf]. by eapply ap_Invalid_l. Qed.

Lemma ap_spoiled_r {A B} (f : validated (A → B)) (x : validated A) :
  (∃ es, x = Invalid es) → ∃ es, f <*> x = Invalid es.
Proof. intros [es Hx]. by eapply ap_Invalid_r. Qed.

Lemma setting_outside name kw env default lo hi :
  Spec.outside lo hi (Settings.source kw env name) →
  ∃ es, Settings.setting name kw env default
          (λ v, check_le hi (check_ge lo (validate_int v))) = Invalid es.
Proof.
  intros (v & z & Hsrc & Hv & Hz). unfold Settings.setting. rewrite Hsrc, Hv.
  destruct (check_range_Invalid lo hi z Hz) as [es ->]. simpl. by eexists.
Qed.

Lemma setting_not_among name kw env default allowed :
  Spec.not_among allowed (Settings.source kw env name) →
  ∃ es, Settings.setting name kw env default (validate_Literal allowed) = Invalid es.
Proof.
  intros (v & Hsrc & Hv). unfold Settings.setting. rewrite Hsrc.
  destruct v as [| | | |s| |]; simpl; try by eexists.
  case_bool_decide as Hs; [|simpl; by eexists]. by destruct (Hv s Hs).
Qed.

End ToolFacts.

(** C6. The construction of [Settings] raises a validation error whenever
    the value supplied for the timeout is outside [1, 300], the one for
    [max_results] outside [1, 100], the one for the port outside
    [1, 65535], the transport is neither ["stdio"] nor ["sse"], or the log
    level is none of ["debug"], ["info"], ["warning"], ["error"]. In
    particular [Settings(searxng_timeout=0)] fails in every environment, and
    [Settings(searxng_timeout=30)] succeeds where the environment sets
    nothing. *)
Theorem settings_fail_fast `{RT : Runtime} :
  (∀ kw env,
     Spec.rejected kw env →
     ∃ es, Settings.init kw env = Raise (ValidationError "Settings" es)) ∧
  (∀ env,
     ∃ es,
       Settings.init
         {| Settings.kw_searxng_url := None; Settings.kw_searxng_timeout := Some (JInt 0);
            Settings.kw_searxng_max_results := None; Settings.kw_mcp_transport := None;
            Settings.kw_mcp_port := None; Settings.kw_log_level := None;
            Settings.kw_cache_enabled := None |} env
       = Raise (ValidationError "Settings" es)) ∧
  Settings.init
    {| Settings.kw_searxng_url := None; Settings.kw_searxng_timeout := Some (JInt 30);
       Settings.kw_searxng_max_results := None; Settings.kw_mcp_transport := None;
       Settings.kw_mcp_port := None; Settings.kw_log_level := None;
       Settings.kw_cache_enabled := None |} ∅
  = Ok (Settings.mk "https://searxng.pixelcrazed.com/" 30 10 "stdio" 3000 "info" false).
Proof.
  assert (∀ kw env,
            Spec.rejected kw env →
            ∃ es, Settings.init kw env = Raise (ValidationError "Settings" es)) as Hgen.
  { intros kw env Hrej. apply raise_for_Invalid.
    destruct Hrej as [H|[H|[H|[H|H]]]].
    - apply (setting_outside "searxng_timeout" _ _ 30) in H.
      repeat first [ by apply ap_spoiled_r | apply ap_spoiled_l ].
    - apply (setting_outside "searxng_max_results" _ _ 10) in H.
      repeat first [ by apply ap_spoiled_r | apply ap_spoiled_l ].
    - apply (setting_outside "mcp_port" _ _ 3000) in H.
      repeat first [ by apply ap_spoiled_r | apply ap_spoiled_l ].
    - apply (setting_not_among "mcp_transport" _ _ "stdio") in H.
      repeat first [ by apply ap_spoiled_r | apply ap_spoiled_l ].
    - apply (setting_not_among "log_level" _ _ "info") in H.
      repeat first [ by apply ap_spoiled_r | apply ap_spoiled_l ]. }
  split; [exact Hgen|]. split; [|by vm_compute].
  intros env. apply Hgen. left. exists (JInt 0), 0. simpl. split; [done|]. split; [done|lia].
Qed.

Lemma settings_fail_fast_witness :
  let kw := {| Settings.kw_searxng_url := None; Settings.kw_searxng_timeout := None;
               Settings.kw_searxng_max_results := Some (JInt 200);
               Settings.kw_mcp_transport := None; Settings.kw_mcp_port := None;
               Settings.kw_log_level := None; Settings.kw_cache_enabled := None |} in
  Spec.rejected (RT:=Sample.runtime) kw ∅ ∧
  ∃ es, Settings.init (RT:=Sample.runtime) kw ∅ = Raise (ValidationError "Settings" es).
Proof.
  intros kw.
  assert (Spec.rejected (RT:=Sample.runtime) kw ∅) as Hrej.
  { right. left. exists (JInt 200), 200. split; [reflexivity|]. split; [reflexivity|]. lia. }
  split; [exact Hrej|].
  exact (proj1 (settings_fail_fast (RT:=Sample.runtime)) kw ∅ Hrej).
Defined.

(** C5, as the code has it. When the settings of the process load, each of
    the three entry points returns the formatted results when the search
    succeeds, and when the search raises an exception that is an
    [Exception] it returns ["Search failed: "], ["Image search failed: "]
    or ["Video search failed: "] followed by the message of the exception,
    and raises nothing. Two kinds of exception leave the entry point: one
    that is no [Exception] ([asyncio.CancelledError], [KeyboardInterrupt],
    [SystemExit]), which [except Exception] does not catch, and the
    validation error of settings that do not load, since the client is
    built outside the [try]. *)
Theorem tools_convert_failures `{RT : Runtime} env w query page :
  (∀ s,
     Settings.get_settings env = Ok s →
     Server.searxng_search env w query page
     = Spec.tool_text "Search"
         (SearXNGClient.search_text (SearXNGClient.of_settings s) w query page) ∧
     Server.searxng_search_images env w query page
     = Spec.tool_text "Image search"
         (SearXNGClient.search (SearXNGClient.of_settings s) w query page
            (Spec.category_only "images")) ∧
     Server.searxng_search_videos env w query page
     = Spec.tool_text "Video search"
         (SearXNGClient.search (SearXNGClient.of_settings s) w query page
            (Spec.category_only "videos"))) ∧
  (∀ e,
     Settings.get_settings env = Raise e →
     Server.searxng_search env w query page = Raise e ∧
     Server.searxng_search_images env w query page = Raise e ∧
     Server.searxng_search_videos env w query page = Raise e) ∧
  (∀ label outcome,
     (∀ response, outcome = Ok response →
        Spec.tool_text label outcome = Ok (Server.format_search_results response 150)) ∧
     (∀ e, outcome = Raise e → is_Exception e = true →
        Spec.tool_text label outcome = Ok (label +:+ " failed: " +:+ exn_str e)) ∧
     (∀ e, outcome = Raise e → is_Exception e = false →
        Spec.tool_text label outcome = Raise e)).
Proof.
  unfold Server.searxng_search, Server.searxng_search_images,
    Server.searxng_search_videos, SearXNGClient.init.
  split; [|split].
  - intros s ->. simpl. unfold Spec.tool_text, Server.try_except.
    fold (Spec.category_only "images"). fold (Spec.category_only "videos").
    split; [|split].
    + by destruct (SearXNGClient.search_text _ _ _ _).
    + by destruct (SearXNGClient.search _ _ _ _ (Spec.category_only "images")).
    + by destruct (SearXNGClient.search _ _ _ _ (Spec.category_only "videos")).
  - intros e ->. done.
  - intros label outcome. unfold Spec.tool_text. split; [|split].
    + by intros response ->.
    + by intros e -> ->.
    + by intros e -> ->.
Qed.

Lemma tools_convert_failures_witness :
  Settings.get_settings (RT:=Sample.runtime) ∅
  = Ok (Settings.mk "https://searxng.pixelcrazed.com/" 30 10 "stdio" 3000 "info" false) ∧
  Server.searxng_search (RT:=Sample.runtime) ∅ Sample.failing "python" 1
  = Ok "Search failed: Server error '500'" ∧
  Server.searxng_search (RT:=Sample.runtime) ∅ Sample.cancelled "python" 1
  = Raise (Interrupt "CancelledError" "") ∧
  Server.searxng_search (RT:=Sample.runtime) ∅ Sample.failing "python" 1
  = Spec.tool_text (RT:=Sample.runtime) "Search"
      (SearXNGClient.search_text (RT:=Sample.runtime)
         (SearXNGClient.of_settings
            (Settings.mk "https://searxng.pixelcrazed.com/" 30 10 "stdio" 3000 "info" false))
         Sample.failing "python" 1) ∧
  Server.searxng_search_images (RT:=Sample.runtime) ∅ Sample.failing "python" 1
  = Spec.tool_text (RT:=Sample.runtime) "Image search"
      (SearXNGClient.search (RT:=Sample.runtime)
         (SearXNGClient.of_settings
            (Settings.mk "https://searxng.pixelcrazed.com/" 30 10 "stdio" 3000 "info" false))
         Sample.failing "python" 1 (Spec.category_only "images")) ∧
  Server.searxng_search_videos (RT:=Sample.runtime) ∅ Sample.failing "python" 1
  = Spec.tool_text (RT:=Sample.runtime) "Video search"
      (SearXNGClient.search (RT:=Sample.runtime)
         (SearXNGClient.of_settings
            (Settings.mk "https://searxng.pixelcrazed.com/" 30 10 "stdio" 3000 "info" false))
         Sample.failing "python" 1 (Spec.category_only "videos")).
Proof.
  split; [vm_compute; reflexivity|]. split; [vm_compute; reflexivity|].
  split; [vm_compute; reflexivity|].
  exact (proj1 (tools_convert_failures (RT:=Sample.runtime) ∅ Sample.failing "python" 1)
           (Settings.mk "https://searxng.pixelcrazed.com/" 30 10 "stdio" 3000 "info" false)
           eq_refl).
Defined.

(** C5, as it is stated, fails when the environment holds a setting that
    does not validate: the entry point raises. It fails too when the call
    is cancelled: [asyncio.CancelledError] is no [Exception]. *)
Lemma tool_raises_on_bad_settings :
  Server.searxng_search (RT:=Sample.runtime)
    (Settings.process {[ "mcp_transport" := "invalid" ]})
    (Sample.serving Sample.body) "python" 1
  = Raise (ValidationError "Settings"
             [{| loc := ["mcp_transport"]; kind := "literal_error" |}]) ∧
  (¬ ∃ text, Server.searxng_search (RT:=Sample.runtime)
               (Settings.process {[ "mcp_transport" := "invalid" ]})
               (Sample.serving Sample.body) "python" 1 = Ok text) ∧
  Server.searxng_search (RT:=Sample.runtime) ∅ Sample.cancelled "python" 1
  = Raise (Interrupt "CancelledError" "") ∧
  ¬ ∃ text, Server.searxng_search (RT:=Sample.runtime) ∅ Sample.cancelled "python" 1
            = Ok text.
Proof.
  assert (Server.searxng_search (RT:=Sample.runtime)
            (Settings.process {[ "mcp_transport" := "invalid" ]})
            (Sample.serving Sample.body) "python" 1
          = Raise (ValidationError "Settings"
                     [{| loc := ["mcp_transport"]; kind := "literal_error" |}])) as H
    by (vm_compute; reflexivity).
  assert (Server.searxng_search (RT:=Sample.runtime) ∅ Sample.cancelled "python" 1
          = Raise (Interrupt "CancelledError" "")) as Hc
    by (vm_compute; reflexivity).
  split; [exact H|]. split; [intros [text Ht]; rewrite H in Ht; discriminate|].
  split; [exact Hc|]. intros [text Ht]. rewrite Hc in Ht. discriminate.
Qed.

(** * Further properties of the code *)

(** ** config.py *)

Section MoreSettingsFacts.
Context `{RT : Runtime}.

#[local] Arguments String.append : simpl nomatch.

Lemma setting_literal name kw env default allowed x :
  default ∈ allowed →
  Settings.setting name kw env default (validate_Literal allowed) = Valid x →
  x ∈ allowed.
Proof.
  intros Hd. unfold Settings.setting.
  destruct (Settings.source kw env name) as [v|]; [|by intros [= <-]].
  intros Hv%at_loc_Valid_inv. destruct v as [| | | |s| |]; simpl in Hv; try done.
  case_bool_decide as Hs; [|done]. by injection Hv as <-.
Qed.

(** The enumerated fields of settings that were constructed. *)
Lemma init_Ok_literals kw env s :
  Settings.init kw env = Ok s →
  Settings.mcp_transport s ∈ ["stdio"; "sse"] ∧
  Settings.log_level s ∈ ["debug"; "info"; "warning"; "error"].
Proof.
  unfold Settings.init, V.raise_for.
  destruct (_ <*> _) as [s'|] eqn:Hv; [|done]. intros [= ->].
  repeat (apply ap_Valid_inv in Hv as (? & ? & Hv & ? & ->)).
  injection Hv as <-. simpl. split.
  - eapply setting_literal; [|eassumption]. by repeat constructor.
  - eapply setting_literal; [|eassumption]. by repeat constructor.
Qed.



Lemma slashes_S n : Facts.slashes (S n) = String "/"%char (Facts.slashes n).
Proof.
  unfold Facts.slashes, Py.join. simpl. destruct n as [|n]; [done|].
  by rewrite replicate_S.
Qed.

Lemma slashes_snoc n : Facts.slashes (S n) = Facts.slashes n +:+ "/".
Proof.
  induction n as [|n IH]; [done|].
  rewrite slashes_S, IH at 1. by rewrite (slashes_S n).
Qed.

(** What [rstrip("/")] takes off is slashes. *)
Lemma rstrip_slashes s :
  ∃ n, s = Py.rstrip_by (λ c, Ascii.eqb c "/"%char) s +:+ Facts.slashes n.
Proof.
  induction s as [|c s [n IH]]; simpl.
  - by exists 0%nat.
  - destruct (Py.rstrip_by _ s) as [|c' t] eqn:Hr.
    + simpl in IH. destruct (Ascii.eqb_spec c "/"%char) as [->|Hc].
      * exists (S n). by rewrite slashes_S, <- IH.
      * exists n. simpl. by rewrite <- IH.
    + exists n. simpl. by rewrite IH at 1.
Qed.

(** What [rstrip("/")] leaves does not end with a slash. *)
Lemma rstrip_no_slash s t :
  Py.rstrip_by (λ c, Ascii.eqb c "/"%char) s ≠ t +:+ "/".
Proof.
  revert t. induction s as [|c s IH]; intros t; simpl.
  - by destruct t.
  - destruct (Py.rstrip_by _ s) as [|c' r] eqn:Hr.
    + destruct (Ascii.eqb_spec c "/"%char) as [->|Hc].
      * by destruct t.
      * destruct t as [|c0 [|c1 t]]; simpl; congruence.
    + destruct t as [|c0 t]; simpl; [done|].
      intros [= -> Ht]. by apply (IH t).
Qed.

End MoreSettingsFacts.

(** X1. Settings that were constructed hold a timeout in [1, 300], a cap
    in [1, 100], a port in [1, 65535], a transport that is ["stdio"] or
    ["sse"] and a log level among the four of the enumeration, whatever the
    keyword arguments and the environment were. *)
Theorem settings_constructed_within_bounds `{RT : Runtime} kw env s :
  Settings.init kw env = Ok s →
  1 ≤ Settings.searxng_timeout s ≤ 300 ∧
  1 ≤ Settings.searxng_max_results s ≤ 100 ∧
  1 ≤ Settings.mcp_port s ≤ 65535 ∧
  Settings.mcp_transport s ∈ ["stdio"; "sse"] ∧
  Settings.log_level s ∈ ["debug"; "info"; "warning"; "error"].
Proof.
  intros Hinit. destruct (init_Ok_inv kw env s Hinit) as (Ht & Hm & Hp).
  destruct (init_Ok_literals kw env s Hinit) as [Htr Hll]. done.
Qed.

Lemma settings_constructed_within_bounds_witness :
  ∃ s,
    Settings.init (RT:=Sample.runtime) Settings.no_kwargs
      (Settings.process {[ "searxng_max_results" := "25"; "mcp_transport" := "sse" ]}) = Ok s ∧
    Settings.searxng_max_results s = 25 ∧
    Settings.mcp_transport s = "sse" ∧
    1 ≤ Settings.searxng_timeout s ≤ 300 ∧
    1 ≤ Settings.searxng_max_results s ≤ 100 ∧
    1 ≤ Settings.mcp_port s ≤ 65535 ∧
    Settings.mcp_transport s ∈ ["stdio"; "sse"] ∧
    Settings.log_level s ∈ ["debug"; "info"; "warning"; "error"].
Proof.
  eexists. split; [vm_compute; reflexivity|]. split; [reflexivity|].
  split; [reflexivity|].
  eapply (settings_constructed_within_bounds (RT:=Sample.runtime) Settings.no_kwargs
            (Settings.process {[ "searxng_max_results" := "25"; "mcp_transport" := "sse" ]})).
  vm_compute; reflexivity.
Defined.



(** X3. [searxng_url_str] is the URL without its trailing slashes: it never
    ends with a slash, so the address [base_url + "/search"] of a client
    has one slash only before [search], and nothing but slashes is taken
    off the URL. *)
Theorem searxng_url_str_strips_slashes (s : Settings.t) :
  (∃ n, Settings.searxng_url s = Settings.searxng_url_str s +:+ Facts.slashes n) ∧
  (∀ t, Settings.searxng_url_str s ≠ t +:+ "/") ∧
  (∀ t, SearXNGClient.base_url (SearXNGClient.of_settings s) ≠ t +:+ "/") ∧
  ((∀ t, Settings.searxng_url s ≠ t +:+ "/") →
   Settings.searxng_url_str s = Settings.searxng_url s).
Proof.
  unfold Settings.searxng_url_str. simpl.
  split; [apply rstrip_slashes|]. split; [apply rstrip_no_slash|].
  split; [apply rstrip_no_slash|].
  intros Hno. destruct (rstrip_slashes (Settings.searxng_url s)) as [[|n] Hn].
  - unfold Facts.slashes in Hn. simpl in Hn. by rewrite str_app_empty_r in Hn.
  - exfalso. rewrite slashes_snoc, <- str_app_assoc in Hn. by apply Hno in Hn.
Qed.

(** X4. For settings that were constructed, [main] serves on standard input
    and output exactly when the transport is ["stdio"]; the other branch is
    reached by ["sse"] only, and listens on every interface at a port in
    [1, 65535]. *)
Theorem main_serves_sse_only_for_sse `{RT : Runtime} kw env s :
  Settings.init kw env = Ok s →
  (Main.serve s = Main.RunStdio ↔ Settings.mcp_transport s = "stdio") ∧
  (Settings.mcp_transport s ≠ "stdio" →
   Settings.mcp_transport s = "sse" ∧
   ∃ port, Main.serve s = Main.RunSse "0.0.0.0" port ["/sse"; "/messages/"] ∧
           port = Settings.mcp_port s ∧ 1 ≤ port ≤ 65535).
Proof.
  intros Hinit. unfold Main.serve.
  destruct (init_Ok_inv kw env s Hinit) as (_ & _ & Hp).
  destruct (init_Ok_literals kw env s Hinit) as [Ht _].
  destruct (String.eqb_spec (Settings.mcp_transport s) "stdio") as [Heq|Hne].
  - split; [done|]. by intros Hne.
  - split; [done|]. intros _. split.
    + apply elem_of_cons in Ht as [?|Ht]; [done|].
      by apply list_elem_of_singleton in Ht.
    + eexists. split; [done|]. split; [done|lia].
Qed.

Lemma main_serves_sse_only_for_sse_witness :
  ∃ s,
    Settings.init (RT:=Sample.runtime) Settings.no_kwargs
      (Settings.process {[ "mcp_transport" := "sse"; "mcp_port" := "8080" ]}) = Ok s ∧
    Main.serve s = Main.RunSse "0.0.0.0" 8080 ["/sse"; "/messages/"] ∧
    (Main.serve s = Main.RunStdio ↔ Settings.mcp_transport s = "stdio") ∧
    (Settings.mcp_transport s ≠ "stdio" →
     Settings.mcp_transport s = "sse" ∧
     ∃ port, Main.serve s = Main.RunSse "0.0.0.0" port ["/sse"; "/messages/"] ∧
             port = Settings.mcp_port s ∧ 1 ≤ port ≤ 65535).
Proof.
  eexists. split; [vm_compute; reflexivity|]. split; [reflexivity|].
  eapply (main_serves_sse_only_for_sse (RT:=Sample.runtime) Settings.no_kwargs
            (Settings.process {[ "mcp_transport" := "sse"; "mcp_port" := "8080" ]})).
  vm_compute; reflexivity.
Defined.

(** ** models.py *)

Section MoreModelFacts.
Context `{RT : Runtime}.

(** What a field with a default validates to. *)
Lemma field_Valid_inv {A} d keys name (dflt : A) validate x :
  field d keys name (Some dflt) validate = Valid x →
  match lookup_keys keys d with
  | Some v => validate v = Valid x
  | None => x = dflt
  end.
Proof.
  unfold field. destruct (lookup_keys keys d) as [v|].
  - apply at_loc_Valid_inv.
  - by intros [= <-].
Qed.

(** The fields of a result that validated, one by one. *)
Lemma result_fields_inv d r :
  SearchResult.validate_fields d = Valid r →
  field d ["url"] "url" (Some None)
    (λ v, validate_Optional validate_HttpUrl (SearchResult.validate_url v))
    = Valid (SearchResult.url r) ∧
  field d ["title"] "title" (Some "") validate_str = Valid (SearchResult.title r) ∧
  field d ["content"] "content" (Some (Some ""))
    (λ v, validate_Optional validate_str (SearchResult.validate_content v))
    = Valid (SearchResult.content r) ∧
  field d ["publishedDate"; "published_date"] "publishedDate" (Some None)
    (validate_Optional validate_str) = Valid (SearchResult.published_date r).
Proof.
  unfold SearchResult.validate_fields. intros Hv.
  repeat (apply ap_Valid_inv in Hv as (? & ? & Hv & ? & ->)).
  injection Hv as <-. done.
Qed.

Lemma is_valid_no_url r : SearchResult.url r = None → SearchResult.is_valid r = false.
Proof. unfold SearchResult.is_valid. by intros ->. Qed.

Lemma is_valid_no_title r : SearchResult.title r = "" → SearchResult.is_valid r = false.
Proof.
  unfold SearchResult.is_valid. intros ->. by destruct (SearchResult.url r).
Qed.

Lemma omap_kept_strings (names : list string) :
  omap Spec.kept_name (JStr <$> names) = names.
Proof. induction names as [|s names IH]; simpl; [done|]. f_equal. exact IH. Qed.

Lemma kept_names_length (items : list json) :
  (length (omap Spec.kept_name items) ≤ length items)%nat.
Proof.
  induction items as [|item items IH]; simpl; [done|].
  unfold omap in IH. destruct item as [| | | |s|[|first rest]|]; simpl; lia.
Qed.

Lemma get_valid_results_sublist (l : list SearchResult.t) :
  List.filter SearchResult.is_valid l `sublist_of` l.
Proof.
  induction l as [|r l IH]; simpl; [constructor|].
  destruct (SearchResult.is_valid r); by constructor.
Qed.

Lemma filter_is_valid_all (l : list SearchResult.t) :
  Forall (λ r, SearchResult.is_valid r = true) l ↔
  List.filter SearchResult.is_valid l = l.
Proof.
  induction l as [|r l IH]; simpl; [done|]. rewrite Forall_cons.
  destruct (SearchResult.is_valid r) eqn:Hr.
  - rewrite IH. split; [by intros [_ ->]|]. by intros [= ->].
  - split; [by intros [? _]|]. intros Heq.
    pose proof (get_valid_results_sublist l) as Hsub%sublist_length.
    rewrite Heq in Hsub. simpl in Hsub. lia.
Qed.

Lemma filter_is_valid_Forall (l : list SearchResult.t) :
  Forall (λ r, SearchResult.is_valid r = true) (List.filter SearchResult.is_valid l).
Proof.
  induction l as [|r l IH]; simpl; [done|].
  destruct (SearchResult.is_valid r) eqn:Hr; [by constructor|done].
Qed.

Lemma len_positive query : query ≠ "" ↔ 1 ≤ Py.len query.
Proof. unfold Py.len. destruct query; simpl; split; intros; try done; lia. Qed.

(** Acceptable arguments build the request that holds them. *)
Lemma init_acceptable query page kw :
  Facts.acceptable query page kw →
  SearchRequest.init query page kw = Ok (Facts.request_of query page kw).
Proof.
  unfold SearchRequest.init, Facts.acceptable, Facts.request_of.
  intros (Hne & Hp & Hs).
  assert (SearchRequest.given "q" (check_min_length 1) "" (Some query) = Valid query)
    as ->.
  { simpl. destruct (Z.leb_spec 1 (Py.len query)); [done|].
    apply len_positive in Hne. lia. }
  assert (SearchRequest.given "pageno" (check_ge 1) 1 (Some page) = Valid page) as ->.
  { simpl. destruct (Z.leb_spec 1 page); [done|lia]. }
  assert (SearchRequest.given "safesearch" (λ x, check_le 2 (check_ge 0 x)) 1
            (SearchRequest.kw_safesearch kw)
          = Valid (default 1 (SearchRequest.kw_safesearch kw))) as ->.
  { destruct (SearchRequest.kw_safesearch kw) as [z|]; [|done]. simpl.
    specialize (Hs z eq_refl). destruct (Z.leb_spec 0 z); [|lia]. simpl.
    destruct (Z.leb_spec z 2); [done|lia]. }
  done.
Qed.

End MoreModelFacts.

(** X5. [SearchRequest] is built exactly from a non-empty query, a page of
    one or more and, when it is given, a [safesearch] of 0, 1 or 2; the
    request then holds the arguments as they were given, with ["json"],
    ["general"] and 1 for the [format], [categories] and [safesearch] that
    were not. Any other arguments raise a validation error. *)
Theorem request_built_iff_acceptable (query : string) (page : Z) (kw : SearchRequest.kwargs) :
  (Facts.acceptable query page kw →
   SearchRequest.init query page kw = Ok (Facts.request_of query page kw)) ∧
  (¬ Facts.acceptable query page kw →
   ∃ es, SearchRequest.init query page kw = Raise (ValidationError "SearchRequest" es)).
Proof.
  pose proof (len_positive query) as Hq. split; [apply init_acceptable|].
  unfold SearchRequest.init, Facts.acceptable.
  intros Hnot. apply raise_for_Invalid.
    destruct (decide (1 ≤ Py.len query)) as [Hlen|Hlen].
    + destruct (decide (1 ≤ page)) as [Hpage|Hpage].
      * assert (∃ es, SearchRequest.given "safesearch" (λ x, check_le 2 (check_ge 0 x)) 1
                        (SearchRequest.kw_safesearch kw) = Invalid es) as Hs.
        { destruct (SearchRequest.kw_safesearch kw) as [z|] eqn:Hz.
          - destruct (decide (0 ≤ z ≤ 2)) as [Hin|Hout].
            + exfalso. apply Hnot. split; [by apply Hq|]. split; [done|].
              by intros ? [= <-].
            + simpl. assert (z < 0 ∨ 2 < z) as Hz' by lia.
              destruct (check_range_Invalid 0 2 z Hz') as [es Hes].
              simpl in Hes. rewrite Hes. simpl. by eexists.
          - exfalso. apply Hnot. split; [by apply Hq|]. split; [done|]. by intros ? [=]. }
        by apply ap_spoiled_r.
      * assert (∃ es, SearchRequest.given "pageno" (check_ge 1) 1 (Some page) = Invalid es)
          as Hp.
        { simpl. assert ((1 <=? page) = false) as -> by (apply Z.leb_gt; lia).
          simpl. by eexists. }
        repeat first [ by apply ap_spoiled_r | apply ap_spoiled_l ].
    + assert (∃ es, SearchRequest.given "q" (check_min_length 1) "" (Some query)
                    = Invalid es) as Hp.
      { simpl. assert ((1 <=? Py.len query) = false) as -> by (apply Z.leb_gt; lia).
        simpl. by eexists. }
      repeat first [ by apply ap_spoiled_r | apply ap_spoiled_l ].
Qed.

(** X6. The [content] of a result that validated is never [None]: a missing
    or null [content] is the empty string. *)
Theorem validated_content_never_none `{RT : Runtime} d r :
  SearchResult.validate_fields d = Valid r →
  (∃ c, SearchResult.content r = Some c) ∧
  (dict_get "content" d = None ∨ dict_get "content" d = Some JNull →
   SearchResult.content r = Some "").
Proof.
  intros (_ & _ & Hc & _)%result_fields_inv.
  apply field_Valid_inv in Hc. simpl in Hc.
  destruct (dict_get "content" d) as [v|] eqn:Hget.
  - destruct v; simpl in Hc; try done; injection Hc as <-;
      (split; [by eexists | by intros [?|[=]]]).
  - rewrite Hc. split; [by eexists|done].
Qed.

Lemma validated_content_never_none_witness :
  let d := [("url", JStr "https://python.org"); ("title", JStr "Python");
            ("content", JNull)] in
  ∃ r,
    SearchResult.validate_fields (RT:=Sample.runtime) d = Valid r ∧
    (∃ c, SearchResult.content r = Some c) ∧
    (dict_get "content" d = None ∨ dict_get "content" d = Some JNull →
     SearchResult.content r = Some "").
Proof.
  intros d. eexists. split; [vm_compute; reflexivity|].
  apply (validated_content_never_none (RT:=Sample.runtime) d). vm_compute; reflexivity.
Defined.

(** X7. A result that validated from an object whose [url] is missing, null
    or the empty string has no URL, and one whose [title] is missing or
    empty has an empty title; neither is valid, so [get_valid_results]
    leaves it out. *)
Theorem validated_without_url_or_title_invalid `{RT : Runtime} d r :
  SearchResult.validate_fields d = Valid r →
  (dict_get "url" d = None ∨ dict_get "url" d = Some JNull
   ∨ dict_get "url" d = Some (JStr "") →
   SearchResult.url r = None ∧ SearchResult.is_valid r = false) ∧
  (dict_get "title" d = None ∨ dict_get "title" d = Some (JStr "") →
   SearchResult.title r = "" ∧ SearchResult.is_valid r = false).
Proof.
  intros (Hu & Ht & _)%result_fields_inv.
  apply field_Valid_inv in Hu, Ht. simpl in Hu, Ht. split.
  - intros Hcase.
    assert (SearchResult.url r = None) as Hnone.
    { destruct Hcase as [H|[H|H]]; rewrite H in Hu; simpl in Hu; congruence. }
    split; [done | by apply is_valid_no_url].
  - intros Hcase.
    assert (SearchResult.title r = "") as Hempty.
    { destruct Hcase as [H|H]; rewrite H in Ht; simpl in Ht; congruence. }
    split; [done | by apply is_valid_no_title].
Qed.

Lemma validated_without_url_or_title_invalid_witness :
  let d := [("url", JStr ""); ("title", JStr "Python")] in
  ∃ r,
    SearchResult.validate_fields (RT:=Sample.runtime) d = Valid r ∧
    SearchResult.is_valid r = false ∧
    (dict_get "url" d = None ∨ dict_get "url" d = Some JNull
     ∨ dict_get "url" d = Some (JStr "") →
     SearchResult.url r = None ∧ SearchResult.is_valid r = false) ∧
    (dict_get "title" d = None ∨ dict_get "title" d = Some (JStr "") →
     SearchResult.title r = "" ∧ SearchResult.is_valid r = false).
Proof.
  intros d. eexists. split; [vm_compute; reflexivity|]. split; [reflexivity|].
  apply (validated_without_url_or_title_invalid (RT:=Sample.runtime) d).
  vm_compute; reflexivity.
Defined.

(** X8. The publication date of a result is read under its alias
    [publishedDate] and, when the alias is missing, under the field name
    [published_date]; it is passed through as it is, and is [None] when
    both are missing. *)
Theorem published_date_by_alias_or_name `{RT : Runtime} d r :
  SearchResult.validate_fields d = Valid r →
  (∀ s, dict_get "publishedDate" d = Some (JStr s) →
        SearchResult.published_date r = Some s) ∧
  (∀ s, dict_get "publishedDate" d = None →
        dict_get "published_date" d = Some (JStr s) →
        SearchResult.published_date r = Some s) ∧
  (dict_get "publishedDate" d = None → dict_get "published_date" d = None →
   SearchResult.published_date r = None).
Proof.
  intros (_ & _ & _ & Hp)%result_fields_inv.
  apply field_Valid_inv in Hp. simpl in Hp. split; [|split].
  - intros s Hs. rewrite Hs in Hp. simpl in Hp. congruence.
  - intros s Ha Hs. rewrite Ha, Hs in Hp. simpl in Hp. congruence.
  - intros Ha Hn. by rewrite Ha, Hn in Hp.
Qed.

Lemma published_date_by_alias_or_name_witness :
  let d := [("url", JStr "https://example.com"); ("title", JStr "Example");
            ("published_date", JStr "2024-01-01T00:00:00")] in
  ∃ r,
    SearchResult.validate_fields (RT:=Sample.runtime) d = Valid r ∧
    SearchResult.published_date r = Some "2024-01-01T00:00:00" ∧
    (∀ s, dict_get "publishedDate" d = Some (JStr s) →
          SearchResult.published_date r = Some s) ∧
    (∀ s, dict_get "publishedDate" d = None →
          dict_get "published_date" d = Some (JStr s) →
          SearchResult.published_date r = Some s) ∧
    (dict_get "publishedDate" d = None → dict_get "published_date" d = None →
     SearchResult.published_date r = None).
Proof.
  intros d. eexists. split; [vm_compute; reflexivity|]. split; [reflexivity|].
  apply (published_date_by_alias_or_name (RT:=Sample.runtime) d).
  vm_compute; reflexivity.
Defined.

(** X9. A decoded body that is no object, or whose [query] is missing or
    is not a string, builds no [SearchResponse]: the constructor raises a
    [TypeError] on the body when it is no object, and a validation error
    holding an error at [query] when it is an object; a search the server
    answers with such a body raises. *)
Theorem malformed_body_rejected `{RT : Runtime} data :
  Facts.malformed data →
  ((∀ d, data ≠ JDict d) → SearchResponse.init data = Raise (TypeError data)) ∧
  (∀ d, data = JDict d →
        ∃ es, SearchResponse.init data = Raise (ValidationError "SearchResponse" es) ∧
              ∃ k, {| loc := ["query"]; kind := k |} ∈ es) ∧
  ∀ self w query page kw,
    Facts.serves w data →
    ∃ e, SearXNGClient.search self w query page kw = Raise e.
Proof.
  intros Hbad.
  assert ((∀ d, data ≠ JDict d) → SearchResponse.init data = Raise (TypeError data))
    as Htype.
  { intros Hno. destruct data; try done. by destruct (Hno fields). }
  assert (∀ d, data = JDict d →
               ∃ es, SearchResponse.init data = Raise (ValidationError "SearchResponse" es) ∧
                     ∃ k, {| loc := ["query"]; kind := k |} ∈ es) as Hval.
  { intros d ->. destruct Hbad as [Hno|(d' & [= <-] & Hq)]; [by destruct (Hno d)|].
    assert (∃ k, field d ["query"] "query" None validate_str
                 = Invalid [{| loc := ["query"]; kind := k |}]) as [k Hf].
    { unfold field. simpl. destruct Hq as [->|(v & -> & Hv)]; simpl; [by eexists|].
      destruct v; simpl; try by eexists. by destruct (Hv s). }
    assert (∃ es, SearchResponse.validate_fields d = Invalid es ∧
                  {| loc := ["query"]; kind := k |} ∈ es) as (es & Hes & Hin).
    { unfold SearchResponse.validate_fields. rewrite Hf.
      cbn [V.ap V.errors_of app]. eexists. split; [done|].
      repeat (rewrite elem_of_app || rewrite elem_of_cons). intuition. }
    simpl. rewrite Hes. simpl. eauto. }
  split; [done|]. split; [done|].
  intros self w query page kw Hw.
  destruct Hbad as [Hno|(d & Hd & _)].
  - eapply search_init_raises; [done|]. by apply Htype.
  - destruct (Hval d Hd) as (es & Hinit & _). by eapply search_init_raises.
Qed.

Lemma malformed_body_rejected_witness :
  let data := JDict [("results", JList [])] in
  Facts.malformed data ∧
  SearchResponse.init (RT:=Sample.runtime) data
  = Raise (ValidationError "SearchResponse" [{| loc := ["query"]; kind := "missing" |}]) ∧
  SearchResponse.init (RT:=Sample.runtime) (JList [])
  = Raise (TypeError (JList [])) ∧
  ((∀ d, data ≠ JDict d) →
   SearchResponse.init (RT:=Sample.runtime) data = Raise (TypeError data)) ∧
  (∀ d, data = JDict d →
        ∃ es, SearchResponse.init (RT:=Sample.runtime) data
              = Raise (ValidationError "SearchResponse" es) ∧
              ∃ k, {| loc := ["query"]; kind := k |} ∈ es) ∧
  ∀ self w query page kw,
    Facts.serves w data →
    ∃ e, SearXNGClient.search (RT:=Sample.runtime) self w query page kw = Raise e.
Proof.
  intros data.
  assert (Facts.malformed data) as Hbad.
  { right. exists [("results", JList [])]. split; [reflexivity|]. left. reflexivity. }
  split; [exact Hbad|]. split; [vm_compute; reflexivity|].
  split; [vm_compute; reflexivity|].
  exact (malformed_body_rejected (RT:=Sample.runtime) data Hbad).
Defined.

(** X10. The normalization of [unresponsive_engines] never fails, whatever
    the input: an input that is no list gives the empty list, a list gives
    no more names than it has elements, and the names of a normalized value
    normalize to themselves. *)
Theorem unresponsive_engines_never_fail `{RT : Runtime} (v : json) :
  ∃ names,
    SearchResponse.normalize_unresponsive_engines v = Valid names ∧
    ((∀ items, v ≠ JList items) → names = []) ∧
    (∀ items, v = JList items → (length names ≤ length items)%nat) ∧
    SearchResponse.normalize_unresponsive_engines (JList (JStr <$> names)) = Valid names.
Proof.
  destruct v as [| | | | |items|];
    try (exists []; split; [done|]; split; [done|]; split; [by intros ? [=]|done]).
  exists (omap Spec.kept_name items). split; [apply normalize_list|].
  split; [by intros H; destruct (H items)|]. split.
  - intros ? [= <-]. apply kept_names_length.
  - by rewrite normalize_list, omap_kept_strings.
Qed.

(** X11. [get_valid_results] gives the valid results of the response and
    no other, in their order: it is a sublist of [results], each of its
    elements is valid, it changes nothing when taken again, and it is the
    whole of [results] exactly when every result is valid. *)
Theorem get_valid_results_sound (self : SearchResponse.t) :
  SearchResponse.get_valid_results self `sublist_of` SearchResponse.results self ∧
  Forall (λ r, SearchResult.is_valid r = true) (SearchResponse.get_valid_results self) ∧
  (∀ r, r ∈ SearchResponse.results self → SearchResult.is_valid r = true →
        r ∈ SearchResponse.get_valid_results self) ∧
  SearchResponse.get_valid_results
    (SearchResponse.set_results self (SearchResponse.get_valid_results self))
  = SearchResponse.get_valid_results self ∧
  (SearchResponse.get_valid_results self = SearchResponse.results self ↔
   Forall (λ r, SearchResult.is_valid r = true) (SearchResponse.results self)).
Proof.
  unfold SearchResponse.get_valid_results. simpl.
  split; [apply get_valid_results_sublist|].
  split; [apply filter_is_valid_Forall|]. split; [|split].
  - intros r Hr Hv. apply list_elem_of_In, List.filter_In.
    split; [by apply list_elem_of_In|done].
  - apply filter_is_valid_all, filter_is_valid_Forall.
  - symmetry. apply filter_is_valid_all.
Qed.

(** ** client.py *)

Section MoreClientFacts.
Context `{RT : Runtime}.

(** The search, once the request is built. *)
Lemma search_unfold self w query page kw request :
  SearchRequest.init query page kw = Ok request →
  SearXNGClient.search self w query page kw
  = (response ← w (SearXNGClient.base_url self +:+ "/search")
                  (SearchRequest.to_params request);
     _ ← Http.raise_for_status response;
     data ← Http.json_body response;
     search_response ← SearchResponse.init data;
     let valid_results := SearchResponse.get_valid_results search_response in
     let valid_results :=
       if Py.llen valid_results >? SearXNGClient.max_results self
       then Py.list_slice_to valid_results (SearXNGClient.max_results self)
       else valid_results in
     mret (SearchResponse.set_results search_response valid_results)).
Proof. intros Hreq. unfold SearXNGClient.search. by rewrite Hreq. Qed.

(** The search with the connection handle gives what the search gives. *)
Lemma stateful_search_fst self st w query page kw :
  (Connection.search self st w query page kw).1
  = SearXNGClient.search self w query page kw.
Proof.
  unfold Connection.search.
  destruct (SearchRequest.init query page kw) as [request|e] eqn:Hreq.
  - rewrite (search_unfold _ _ _ _ _ request Hreq).
    by destruct (Connection._get_client st).
  - unfold SearXNGClient.search. by rewrite Hreq.
Qed.

Lemma stateful_search_snd self st w query page kw :
  (Connection.search self st w query page kw).2
  = match SearchRequest.init query page kw with
    | Ok _ => (Connection._get_client st).2
    | Raise _ => st
    end.
Proof.
  unfold Connection.search.
  destruct (SearchRequest.init query page kw); [|done].
  by destruct (Connection._get_client st).
Qed.

(** The state a search leaves behind, from a client that has no handle. *)
Lemma stateful_search_released self w query page kw :
  let st := Connection.__aexit__ (Connection.search self Connection.initial w query page kw).2 in
  Connection._client st = None ∧ Forall (λ b, b = true) (Connection.clients st).
Proof.
  rewrite stateful_search_snd. destruct (SearchRequest.init query page kw); simpl.
  - split; [done|]. by repeat constructor.
  - split; [done|]. constructor.
Qed.

(** One entry point within its scope. *)
Lemma scoped_tool env w query page kw label :
  match Connection.scoped env
          (λ client st,
             let '(outcome, st) := Connection.search client st w query page kw in
             (response ← outcome; mret (Server.format_search_results response 150), st))
          (λ e, label +:+ exn_str e)
  with
  | Ok (text, st) =>
      (client ← SearXNGClient.init None env;
       Server.try_except
         (response ← SearXNGClient.search client w query page kw;
          mret (Server.format_search_results response 150))
         (λ e, label +:+ exn_str e)) = Ok text ∧
      Connection._client st = None ∧
      Forall (λ b, b = true) (Connection.clients st)
  | Raise e =>
      (client ← SearXNGClient.init None env;
       Server.try_except
         (response ← SearXNGClient.search client w query page kw;
          mret (Server.format_search_results response 150))
         (λ e, label +:+ exn_str e)) = Raise e
  end.
Proof.
  unfold Connection.scoped.
  destruct (SearXNGClient.init None env) as [client|e]; simpl; [|done].
  pose proof (stateful_search_fst client Connection.initial w query page kw) as Hfst.
  pose proof (stateful_search_released client w query page kw) as Hrel.
  destruct (Connection.search client Connection.initial w query page kw) as [outcome st].
  simpl in *. subst outcome.
  destruct (Server.try_except _ _) as [text|e]; simpl; done.
Qed.

End MoreClientFacts.

(** X12. A successful search on a client of constructed settings returns at
    most [max_results] results, all valid, and they form a sublist of the
    results parsed from the body of the server: the client adds no result
    and changes neither a result nor the order. *)
Theorem search_returns_sublist_within_cap `{RT : Runtime} kw_s env s w query page kw resp :
  Settings.init kw_s env = Ok s →
  SearXNGClient.search (SearXNGClient.of_settings s) w query page kw = Ok resp →
  ∃ data parsed,
    Spec.answered (SearXNGClient.of_settings s) w query page kw data ∧
    SearchResponse.init data = Ok parsed ∧
    Py.llen (SearchResponse.results resp) ≤ Settings.searxng_max_results s ∧
    SearchResponse.results resp `sublist_of` SearchResponse.results parsed ∧
    Forall (λ r, SearchResult.is_valid r = true) (SearchResponse.results resp).
Proof.
  intros (_ & Hcap & _)%init_Ok_inv (data & parsed & Hans & Hparsed & ->)%search_Ok_inv.
  exists data, parsed. split; [done|]. split; [done|]. simpl.
  pose proof (get_valid_results_sublist (SearchResponse.results parsed)) as Hsub.
  pose proof (filter_is_valid_Forall (SearchResponse.results parsed)) as Hall.
  fold (SearchResponse.get_valid_results parsed) in Hsub, Hall.
  destruct (Z.gtb_spec (Py.llen (SearchResponse.get_valid_results parsed))
              (Settings.searxng_max_results s)) as [Hgt|Hle].
  - rewrite list_slice_to_lt by lia. split; [|split].
    + unfold Py.llen. rewrite length_take. lia.
    + etrans; [apply sublist_take|done].
    + by apply Forall_take.
  - done.
Qed.

Lemma search_returns_sublist_within_cap_witness :
  ∃ s resp,
    Settings.init (RT:=Sample.runtime) Settings.no_kwargs ∅ = Ok s ∧
    SearXNGClient.search (RT:=Sample.runtime) (SearXNGClient.of_settings s)
      (Sample.serving Sample.body) "python" 1 SearchRequest.no_kwargs = Ok resp ∧
    ∃ data parsed,
      Spec.answered (SearXNGClient.of_settings s) (Sample.serving Sample.body)
        "python" 1 SearchRequest.no_kwargs data ∧
      SearchResponse.init (RT:=Sample.runtime) data = Ok parsed ∧
      Py.llen (SearchResponse.results resp) ≤ Settings.searxng_max_results s ∧
      SearchResponse.results resp `sublist_of` SearchResponse.results parsed ∧
      Forall (λ r, SearchResult.is_valid r = true) (SearchResponse.results resp).
Proof.
  eexists _, _. split; [vm_compute; reflexivity|]. split; [vm_compute; reflexivity|].
  eapply (search_returns_sublist_within_cap (RT:=Sample.runtime) Settings.no_kwargs ∅);
    vm_compute; reflexivity.
Defined.

(** X13. [search] raises again what the transport raised, unchanged: the
    exception of [client.get], the one of [raise_for_status] (whatever the
    body is), and the one of [response.json()]. *)
Theorem search_reraises_transport_errors `{RT : Runtime} self w query page kw request e :
  SearchRequest.init query page kw = Ok request →
  let url := SearXNGClient.base_url self +:+ "/search" in
  let params := SearchRequest.to_params request in
  (w url params = Raise e → SearXNGClient.search self w query page kw = Raise e) ∧
  (∀ response,
     w url params = Ok response →
     (Http.status_error response = Some e →
      SearXNGClient.search self w query page kw = Raise e) ∧
     (Http.status_error response = None → Http.json_body response = Raise e →
      SearXNGClient.search self w query page kw = Raise e)).
Proof.
  intros Hreq url params. rewrite (search_unfold _ _ _ _ _ request Hreq).
  fold url params. unfold Http.raise_for_status. split.
  - by intros ->.
  - intros response ->. simpl. split.
    + by intros ->.
    + by intros -> ->.
Qed.

Lemma search_reraises_transport_errors_witness :
  let self := SearXNGClient.of_settings
                (Settings.mk "https://searxng.pixelcrazed.com/" 30 10 "stdio" 3000 "info" false) in
  let e := Raised "HTTPStatusError" "Server error '500'" in
  SearXNGClient.search (RT:=Sample.runtime) self Sample.failing "python" 1
    SearchRequest.no_kwargs = Raise e ∧
  ∃ request,
    SearchRequest.init "python" 1 SearchRequest.no_kwargs = Ok request ∧
    let url := SearXNGClient.base_url self +:+ "/search" in
    let params := SearchRequest.to_params request in
    (Sample.failing url params = Raise e →
     SearXNGClient.search (RT:=Sample.runtime) self Sample.failing "python" 1
       SearchRequest.no_kwargs = Raise e) ∧
    (∀ response,
       Sample.failing url params = Ok response →
       (Http.status_error response = Some e →
        SearXNGClient.search (RT:=Sample.runtime) self Sample.failing "python" 1
          SearchRequest.no_kwargs = Raise e) ∧
       (Http.status_error response = None → Http.json_body response = Raise e →
        SearXNGClient.search (RT:=Sample.runtime) self Sample.failing "python" 1
          SearchRequest.no_kwargs = Raise e)).
Proof.
  intros self e. split; [vm_compute; reflexivity|].
  eexists. split; [vm_compute; reflexivity|].
  apply (search_reraises_transport_errors (RT:=Sample.runtime) self Sample.failing
           "python" 1 SearchRequest.no_kwargs).
  vm_compute; reflexivity.
Defined.

(** X14. A call of [search] asks the server one thing only, the address
    [base_url + "/search"] with the parameters of the request: two servers
    that answer it alike give the same outcome, and when the request is not
    built the server is not asked at all. *)
Theorem search_asks_one_request `{RT : Runtime} self w1 w2 query page kw :
  (∀ request,
     SearchRequest.init query page kw = Ok request →
     w1 (SearXNGClient.base_url self +:+ "/search") (SearchRequest.to_params request)
     = w2 (SearXNGClient.base_url self +:+ "/search") (SearchRequest.to_params request)) →
  SearXNGClient.search self w1 query page kw = SearXNGClient.search self w2 query page kw.
Proof.
  intros Hsame.
  destruct (SearchRequest.init query page kw) as [request|e] eqn:Hreq.
  - rewrite !(search_unfold _ _ _ _ _ request Hreq). by rewrite (Hsame request).
  - unfold SearXNGClient.search. by rewrite Hreq.
Qed.

Lemma search_asks_one_request_witness :
  let self := SearXNGClient.of_settings
                (Settings.mk "https://searxng.pixelcrazed.com/" 30 10 "stdio" 3000 "info" false) in
  let elsewhere : Http.world :=
    λ url params,
      if String.eqb url "https://searxng.pixelcrazed.com/search"
      then Sample.serving Sample.body url params
      else Raise (Raised "ConnectError" "unreachable") in
  SearXNGClient.search (RT:=Sample.runtime) self (Sample.serving Sample.body) "python" 1
    SearchRequest.no_kwargs
  = SearXNGClient.search (RT:=Sample.runtime) self elsewhere "python" 1
      SearchRequest.no_kwargs.
Proof.
  intros self elsewhere.
  apply (search_asks_one_request (RT:=Sample.runtime) self (Sample.serving Sample.body)
           elsewhere "python" 1 SearchRequest.no_kwargs).
  intros request _. reflexivity.
Defined.

(** X23. The parameters the entry points send: for a non-empty query and a
    page of one or more, the request of a search with the category alone is
    built, and its parameters are [q], [format=json], the category, the
    page and [safesearch=1], with neither [language] nor [time_range]. *)
Theorem category_search_parameters (query : string) (page : Z) (c : string) :
  query ≠ "" →
  1 ≤ page →
  ∃ request,
    SearchRequest.init query page (Spec.category_only c) = Ok request ∧
    SearchRequest.to_params request
    = <["safesearch" := JInt 1]>
        (<["pageno" := JInt page]>
           (<["categories" := JStr c]>
              (<["format" := JStr "json"]> (<["q" := JStr query]> ∅)))) ∧
    SearchRequest.to_params request !! "language" = None ∧
    SearchRequest.to_params request !! "time_range" = None.
Proof.
  intros Hq Hp. exists (Facts.request_of query page (Spec.category_only c)).
  split; [apply init_acceptable; by repeat split|].
  split; [done|]. split; by simplify_map_eq.
Qed.

Lemma category_search_parameters_witness :
  ∃ request,
    SearchRequest.init "python" 2 (Spec.category_only "images") = Ok request ∧
    SearchRequest.to_params request
    = <["safesearch" := JInt 1]>
        (<["pageno" := JInt 2]>
           (<["categories" := JStr "images"]>
              (<["format" := JStr "json"]> (<["q" := JStr "python"]> ∅)))) ∧
    SearchRequest.to_params request !! "language" = None ∧
    SearchRequest.to_params request !! "time_range" = None.
Proof. apply (category_search_parameters "python" 2 "images"); [discriminate|lia]. Defined.

(** X15. [_get_client] hands out an open handle and keeps it: the handle is
    the one of the client afterwards, asking again gives the same handle
    and changes nothing, and no object that existed is touched. *)
Theorem get_client_reuses_open_handle (st : Connection.state) :
  let '(h, st1) := Connection._get_client st in
  Connection._client st1 = Some h ∧
  Connection.is_closed st1 h = false ∧
  Connection.wf st1 ∧
  Connection._get_client st1 = (h, st1) ∧
  (∀ h', (h' < length (Connection.clients st))%nat →
         Connection.clients st1 !! h' = Connection.clients st !! h').
Proof.
  unfold Connection._get_client.
  assert (let '(h, st1) := Connection.create st in
          Connection._client st1 = Some h ∧
          Connection.is_closed st1 h = false ∧
          Connection.wf st1 ∧
          Connection._get_client st1 = (h, st1) ∧
          (∀ h', (h' < length (Connection.clients st))%nat →
                 Connection.clients st1 !! h' = Connection.clients st !! h')) as Hcreate.
  { unfold Connection.create, Connection._get_client, Connection.is_closed,
      Connection.wf. simpl.
    rewrite lookup_app_r, Nat.sub_diag by done. simpl.
    split; [done|]. split; [done|]. split; [rewrite length_app; simpl; lia|].
    split; [done|]. intros h' Hh'. by rewrite lookup_app_l. }
  destruct (Connection._client st) as [h|] eqn:Hc; [|done].
  destruct (Connection.is_closed st h) eqn:Hclosed; [done|].
  unfold Connection.wf. rewrite Hc, Hclosed.
  split; [done|]. split; [done|]. split; [|done].
  unfold Connection.is_closed in Hclosed.
  destruct (Connection.clients st !! h) eqn:Hl; [|done].
  by apply lookup_lt_Some in Hl.
Qed.

(** X16. After [close] the client holds no open handle: an open handle is
    closed and forgotten, a handle that was closed already is kept as it
    is, and the other objects are not touched; closing again changes
    nothing. *)
Theorem close_releases_the_handle (st : Connection.state) :
  let st' := Connection.close st in
  (∀ h, Connection._client st = Some h → Connection.is_closed st' h = true) ∧
  (∀ h, Connection._client st = Some h → Connection.is_closed st h = false →
        Connection._client st' = None) ∧
  (∀ h, Connection._client st = Some h → Connection.is_closed st h = true → st' = st) ∧
  (Connection._client st = None → st' = st) ∧
  (∀ h', Connection._client st ≠ Some h' →
         Connection.clients st' !! h' = Connection.clients st !! h') ∧
  Connection.close st' = st'.
Proof.
  unfold Connection.close.
  destruct (Connection._client st) as [h|] eqn:Hc; [|by rewrite Hc].
  destruct (Connection.is_closed st h) eqn:Hclosed; simpl.
  - rewrite Hc, Hclosed. simpl. split; [by intros ? [= <-]|]. split; [|done].
    intros ? [= <-]. congruence.
  - split; [|split; [done|]; split; [|split; [done|]; split; [|done]]].
    + intros ? [= <-]. unfold Connection.is_closed in *. simpl.
      destruct (Connection.clients st !! h) eqn:Hl; [|done].
      apply lookup_lt_Some in Hl. by rewrite list_lookup_insert_eq.
    + intros ? [= <-]. congruence.
    + intros h' Hne. apply list_lookup_insert_ne. congruence.
Qed.

(** X17. After [close], the next [_get_client] makes a new object: its
    handle is open, it is none of the handles that existed, and the handle
    the client held before stays closed. *)
Theorem get_client_after_close_is_fresh (st : Connection.state) :
  Connection.wf st →
  let '(h', st2) := Connection._get_client (Connection.close st) in
  h' = length (Connection.clients st) ∧
  Connection.is_closed st2 h' = false ∧
  Connection._client st2 = Some h' ∧
  ∀ h, Connection._client st = Some h → h ≠ h' ∧ Connection.is_closed st2 h = true.
Proof.
  unfold Connection.wf, Connection.close, Connection._get_client.
  destruct (Connection._client st) as [h|] eqn:Hc.
  - intros Hwf. destruct (Connection.is_closed st h) eqn:Hclosed; simpl.
    + rewrite Hc, Hclosed. unfold Connection.create, Connection.is_closed in *. simpl.
      rewrite lookup_app_r, Nat.sub_diag by done. simpl.
      split; [done|]. split; [done|]. split; [done|].
      intros ? [= <-]. split; [lia|]. by rewrite lookup_app_l.
    + unfold Connection.create, Connection.is_closed in *. simpl.
      rewrite length_insert, lookup_app_r, length_insert, Nat.sub_diag
        by (rewrite length_insert; done). simpl.
      split; [done|]. split; [done|]. split; [done|].
      intros ? [= <-]. split; [lia|].
      rewrite lookup_app_l by (rewrite length_insert; done).
      by rewrite list_lookup_insert_eq.
  - intros _. rewrite Hc. unfold Connection.create, Connection.is_closed. simpl.
    rewrite lookup_app_r, Nat.sub_diag by done. simpl. done.
Qed.

Lemma get_client_after_close_is_fresh_witness :
  let st := {| Connection.clients := [true; false]; Connection._client := Some 1%nat |} in
  Connection.wf st ∧
  Connection._get_client (Connection.close st)
  = (2%nat, {| Connection.clients := [true; true; false];
               Connection._client := Some 2%nat |}) ∧
  let '(h', st2) := Connection._get_client (Connection.close st) in
  h' = length (Connection.clients st) ∧
  Connection.is_closed st2 h' = false ∧
  Connection._client st2 = Some h' ∧
  ∀ h, Connection._client st = Some h → h ≠ h' ∧ Connection.is_closed st2 h = true.
Proof.
  intros st. assert (Connection.wf st) as Hwf by (unfold Connection.wf; simpl; lia).
  split; [exact Hwf|]. split; [reflexivity|].
  exact (get_client_after_close_is_fresh st Hwf).
Defined.

(** X18. The search with its connection handle gives what the search
    gives; it asks for the handle only once the request is built, so a
    request that is not built opens no connection. *)
Theorem search_opens_connection_after_request `{RT : Runtime} self st w query page kw :
  (Connection.search self st w query page kw).1
  = SearXNGClient.search self w query page kw ∧
  (∀ e, SearchRequest.init query page kw = Raise e →
        (Connection.search self st w query page kw).2 = st) ∧
  (∀ request, SearchRequest.init query page kw = Ok request →
        (Connection.search self st w query page kw).2 = (Connection._get_client st).2).
Proof.
  split; [apply stateful_search_fst|]. rewrite stateful_search_snd.
  split; [by intros e ->|by intros request ->].
Qed.

(** X19. Each of the three entry points leaves no connection open: within
    its scope it answers what the entry point answers, and when it returns
    the client holds no handle and every object it made is closed, whether
    the search succeeded or failed. When the settings do not load, no
    object is made. *)
Theorem tools_release_the_connection `{RT : Runtime} env w query page :
  match Connection.searxng_search env w query page with
  | Ok (text, st) =>
      Server.searxng_search env w query page = Ok text ∧
      Connection._client st = None ∧ Forall (λ b, b = true) (Connection.clients st)
  | Raise e => Server.searxng_search env w query page = Raise e
  end ∧
  match Connection.searxng_search_images env w query page with
  | Ok (text, st) =>
      Server.searxng_search_images env w query page = Ok text ∧
      Connection._client st = None ∧ Forall (λ b, b = true) (Connection.clients st)
  | Raise e => Server.searxng_search_images env w query page = Raise e
  end ∧
  match Connection.searxng_search_videos env w query page with
  | Ok (text, st) =>
      Server.searxng_search_videos env w query page = Ok text ∧
      Connection._client st = None ∧ Forall (λ b, b = true) (Connection.clients st)
  | Raise e => Server.searxng_search_videos env w query page = Raise e
  end.
Proof.
  split; [|split].
  - apply (scoped_tool env w query page
             {| SearchRequest.kw_format := None;
                SearchRequest.kw_categories := Some "general";
                SearchRequest.kw_language := None;
                SearchRequest.kw_time_range := None;
                SearchRequest.kw_safesearch := None |} "Search failed: ").
  - apply (scoped_tool env w query page
             {| SearchRequest.kw_format := None;
                SearchRequest.kw_categories := Some "images";
                SearchRequest.kw_language := None;
                SearchRequest.kw_time_range := None;
                SearchRequest.kw_safesearch := None |} "Image search failed: ").
  - apply (scoped_tool env w query page
             {| SearchRequest.kw_format := None;
                SearchRequest.kw_categories := Some "videos";
                SearchRequest.kw_language := None;
                SearchRequest.kw_time_range := None;
                SearchRequest.kw_safesearch := None |} "Video search failed: ").
Qed.

(** ** server.py *)

Section MoreFormatFacts.

#[local] Arguments String.append : simpl nomatch.

Lemma len_app s1 s2 : Py.len (s1 +:+ s2) = Py.len s1 + Py.len s2.
Proof. unfold Py.len. rewrite str_length_app. lia. Qed.

(** A block shows the title, the URL and the content of a result only. *)
Lemma block_shown L i r1 r2 :
  Facts.shown r1 = Facts.shown r2 → Server.block L i r1 = Server.block L i r2.
Proof. unfold Facts.shown, Server.block. by intros [= -> -> ->]. Qed.

Lemma imap_shown {B} (f : nat → SearchResult.t → B) (l1 l2 : list SearchResult.t) :
  (∀ i r1 r2, Facts.shown r1 = Facts.shown r2 → f i r1 = f i r2) →
  Facts.shown <$> l1 = Facts.shown <$> l2 →
  imap f l1 = imap f l2.
Proof.
  revert f l2. induction l1 as [|r1 l1 IH]; intros f [|r2 l2] Hf Heq; try done.
  rewrite !fmap_cons in Heq.
  assert (Facts.shown r1 = Facts.shown r2 ∧ Facts.shown <$> l1 = Facts.shown <$> l2)
    as [Hr Hl] by (split; congruence).
  simpl. f_equal; [by apply Hf|].
  apply IH; [|done]. intros i ? ? Hsh. exact (Hf (S i) _ _ Hsh).
Qed.

End MoreFormatFacts.

(** X20. For a truncation length [L] that is not negative, the snippet of
    a result is never longer than [L + 3] characters, nor than the content by
    more than the ellipsis; a content that is [None] or empty gives the
    empty snippet. *)
Theorem snippet_length_bounded (content : option string) (L : Z) :
  0 ≤ L →
  Py.len (Server.snippet content L) ≤ L + 3 ∧
  (∀ c, content = Some c → Py.len (Server.snippet content L) ≤ Py.len c + 3) ∧
  (content = None ∨ content = Some "" → Server.snippet content L = "").
Proof.
  intros H0. destruct content as [c|];
    [|unfold Py.len; simpl; split; [lia|]; split; [by intros ? [=]|done]].
  destruct (decide (Py.len c ≤ L)) as [Hle|Hgt].
  - rewrite snippet_short by done. split; [lia|]. split.
    + intros ? [= <-]. lia.
    + by intros [[=]|[= ->]].
  - rewrite snippet_long by lia.
    destruct (substring_prefix (Z.to_nat L) c) as (rest & Hrest & Hlen).
    { unfold Py.len in Hgt. lia. }
    assert (Py.len (String.substring 0 (Z.to_nat L) c +:+ "...") = L + 3) as ->.
    { rewrite len_app. unfold Py.len. rewrite Hlen. simpl. lia. }
    split; [lia|]. split.
    + intros ? [= <-]. lia.
    + intros [[=]|[= ->]]. unfold Py.len in Hgt. simpl in Hgt. lia.
Qed.

Lemma snippet_length_bounded_witness :
  0 ≤ 4 ∧
  Server.snippet (Some "abcdefgh") 4 = "abcd..." ∧
  Py.len (Server.snippet (Some "abcdefgh") 4) ≤ 4 + 3 ∧
  (∀ c, Some "abcdefgh" = Some c → Py.len (Server.snippet (Some "abcdefgh") 4) ≤ Py.len c + 3) ∧
  (Some "abcdefgh" = None ∨ Some "abcdefgh" = Some "" →
   Server.snippet (Some "abcdefgh") 4 = "").
Proof.
  split; [lia|]. split; [reflexivity|].
  apply (snippet_length_bounded (Some "abcdefgh") 4). lia.
Defined.

(** X21. For a negative truncation length the slice counts from the end:
    the snippet of a non-empty content is the content without its last
    [-L] characters (nothing of it when it has no more than that), and the
    ellipsis is always added. *)
Theorem snippet_negative_length (c : string) (L : Z) :
  L < 0 →
  c ≠ "" →
  ∃ first rest,
    c = first +:+ rest ∧
    Py.len rest = Z.min (- L) (Py.len c) ∧
    Server.snippet (Some c) L = first +:+ "...".
Proof.
  intros Hneg Hc. unfold Server.snippet, Py.str_slice_to.
  assert (Py.truthy c = true) as -> by by apply truthy_true.
  assert (0 ≤ Py.len c) as Hlen by (unfold Py.len; lia).
  destruct (Z.gtb_spec (Py.len c) L); [|lia]. simpl.
  destruct (substring_prefix (Py.slice_stop (Py.len c) L) c) as (rest & Hrest & Hsub).
  { unfold Py.slice_stop, Py.len. destruct (Z.ltb_spec L 0); lia. }
  exists (String.substring 0 (Py.slice_stop (Py.len c) L) c), rest.
  split; [done|]. split; [|done].
  apply (f_equal Py.len) in Hrest. rewrite len_app in Hrest.
  unfold Py.len at 2 in Hrest. rewrite Hsub in Hrest.
  unfold Py.slice_stop in Hrest. destruct (Z.ltb_spec L 0); lia.
Qed.

Lemma snippet_negative_length_witness :
  (-2) < 0 ∧ "abcdef" ≠ "" ∧
  Server.snippet (Some "abcdef") (-2) = "abcd..." ∧
  Server.snippet (Some "a") (-2) = "..." ∧
  ∃ first rest,
    "abcdef" = first +:+ rest ∧
    Py.len rest = Z.min (- (-2)) (Py.len "abcdef") ∧
    Server.snippet (Some "abcdef") (-2) = first +:+ "...".
Proof.
  split; [lia|]. split; [discriminate|]. split; [reflexivity|]. split; [reflexivity|].
  apply (snippet_negative_length "abcdef" (-2)); [lia|discriminate].
Defined.

(** X22. The formatter reads nothing of a response but its query, the
    title, URL and content of its results and its first three suggestions:
    two responses that agree on these format alike, whatever their
    [number_of_results] and the dates, thumbnails, engines, scores and
    categories of their results. *)
Theorem format_reads_shown_fields_only (response1 response2 : SearchResponse.t) (L : Z) :
  SearchResponse.query response1 = SearchResponse.query response2 →
  Facts.shown <$> SearchResponse.results response1
    = Facts.shown <$> SearchResponse.results response2 →
  take 3 (SearchResponse.suggestions response1)
    = take 3 (SearchResponse.suggestions response2) →
  Server.format_search_results response1 L = Server.format_search_results response2 L.
Proof.
  intros Hq Hr Hs. unfold Server.format_search_results. rewrite Hq.
  rewrite (imap_shown _ (SearchResponse.results response1)
             (SearchResponse.results response2))
    by (done || (intros; by apply block_shown)).
  destruct (SearchResponse.results response1) as [|r1 l1],
           (SearchResponse.results response2) as [|r2 l2]; try done.
  unfold Server.related. change 3 with (Z.of_nat 3). rewrite !list_slice_to_take, Hs.
  by destruct (SearchResponse.suggestions response1),
              (SearchResponse.suggestions response2).
Qed.

Lemma format_reads_shown_fields_only_witness :
  let r1 := SearchResult.mk (Some "https://python.org/") "Python" (Some "c") None None
              "g" [] (S754_zero false) "general" in
  let r2 := SearchResult.mk (Some "https://python.org/") "Python" (Some "c")
              (Some "2024-01-01") (Some "https://python.org/t.png")
              "brave" ["brave"; "g"] (S754_infinity false) "images" in
  let response1 := SearchResponse.mk "python" 1 [r1] ["a"; "b"; "c"; "d"] [] [] in
  let response2 := SearchResponse.mk "python" 99 [r2] ["a"; "b"; "c"; "e"; "f"] ["x"] ["y"] in
  Server.format_search_results response1 150 = Server.format_search_results response2 150.
Proof.
  intros r1 r2 response1 response2.
  apply (format_reads_shown_fields_only response1 response2 150); reflexivity.
Defined.
